(** * Virtual-media attachment on the FALCON (Ampere) controller

    A shallow embedding of
    [ironic_virtmedia_driver/vendors/openbmc_hw.py] and
    [ironic_virtmedia_driver/vendors/ampere/falcon.py].

    The controller is reached through two calls of ironic's [ipmitool]
    module, [send_raw] and [_exec_ipmitool].  Both are blocking and either
    give back the output text or raise.  A run of the driver is modelled in
    a state-and-exception monad whose state is the chronological trace of
    everything the driver did to the outside world: the commands it sent and
    the delays it slept.  What the controller answers is given by a
    [Transport], a function of the number of commands sent so far and of the
    command itself, so that any scripted stub can be written down. *)

From Stdlib Require Import ZArith List String Ascii Bool Lia Arith.
Import ListNotations.
Open Scope string_scope.

(** ** Python built-ins used by the driver *)

Module Py.

(** [str.isspace] on one byte, in the C locale. *)
Definition is_space (c : ascii) : bool :=
  let n := nat_of_ascii c in
  (n =? 32)%nat || ((9 <=? n)%nat && (n <=? 13)%nat).

Fixpoint lstrip (s : string) : string :=
  match s with
  | String c s' => if is_space c then lstrip s' else s
  | EmptyString => EmptyString
  end.

(** [rstrip] keeps a character when something that is not white space
    comes at or after it. *)
Fixpoint rstrip (s : string) : string :=
  match s with
  | EmptyString => EmptyString
  | String c s' =>
      match rstrip s' with
      | EmptyString => if is_space c then EmptyString else String c EmptyString
      | r => String c r
      end
  end.

(** [s.strip()] *)
Definition strip (s : string) : string := rstrip (lstrip s).

(** [s.replace('\n', '')] *)
Fixpoint remove_newlines (s : string) : string :=
  match s with
  | EmptyString => EmptyString
  | String c s' =>
      if (nat_of_ascii c =? 10)%nat then remove_newlines s'
      else String c (remove_newlines s')
  end.

(** [s[i:j]] for [0 <= i <= j]. *)
Definition slice (i j : nat) (s : string) : string := substring i (j - i) s.

Definition digit_value (c : ascii) : option Z :=
  let n := nat_of_ascii c in
  if (48 <=? n)%nat && (n <=? 57)%nat then Some (Z.of_nat (n - 48))
  else if (97 <=? n)%nat && (n <=? 122)%nat then Some (Z.of_nat (n - 87))
  else if (65 <=? n)%nat && (n <=? 90)%nat then Some (Z.of_nat (n - 55))
  else None.

(** The digits of [s] in base [base], most significant first, on top of
    the accumulator [acc]; [None] when a character is no digit of the base. *)
Fixpoint digits (base : Z) (acc : Z) (s : string) : option Z :=
  match s with
  | EmptyString => Some acc
  | String c s' =>
      match digit_value c with
      | Some d => if (d <? base)%Z then digits base (acc * base + d) s' else None
      | None => None
      end
  end.

Definition unsigned_literal (base : Z) (s : string) : option Z :=
  match s with
  | EmptyString => None
  | _ => digits base 0 s
  end.

(** In base 16 a literal may carry the prefix [0x] or [0X]. *)
Definition drop_radix_prefix (base : Z) (s : string) : string :=
  match s with
  | String "0" (String x s') =>
      if (base =? 16)%Z && (Ascii.eqb x "x" || Ascii.eqb x "X") then s' else s
  | _ => s
  end.

(** [int(s, base)] on a byte string: white space around the literal is
    dropped, one sign is allowed, then at least one digit of the base.
    [None] stands for the [ValueError] of the built-in. *)
Definition int_of_string (base : Z) (s : string) : option Z :=
  match strip s with
  | String "-" s' => option_map Z.opp (unsigned_literal base (drop_radix_prefix base s'))
  | String "+" s' => unsigned_literal base (drop_radix_prefix base s')
  | s' => unsigned_literal base (drop_radix_prefix base s')
  end.

Definition hex_char (d : nat) : ascii :=
  if (d <? 10)%nat then ascii_of_nat (48 + d) else ascii_of_nat (87 + d).

(** The hexadecimal digits of a natural number, lower case, no prefix;
    [fuel] bounds the number of digits. *)
Fixpoint hex_digits (fuel : nat) (n : nat) (acc : string) : string :=
  match fuel with
  | O => acc
  | S fuel' =>
      let acc' := String (hex_char (n mod 16)) acc in
      if (n <? 16)%nat then acc' else hex_digits fuel' (n / 16) acc'
  end.

(** [hex(n)] on an [int]. *)
Definition hex (n : Z) : string :=
  let m := Z.to_nat (Z.abs n) in
  ((if (n <? 0)%Z then "-0x" else "0x") ++ hex_digits (S m) m "")%string.

(** [c.encode('hex')] on one byte: two lower-case digits. *)
Definition encode_hex (c : ascii) : string :=
  let n := nat_of_ascii c in
  String (hex_char (n / 16)) (String (hex_char (n mod 16)) EmptyString).

Definition is_hex_digit (c : ascii) : bool :=
  match digit_value c with
  | Some d => (d <? 16)%Z
  | None => false
  end.

(** Whether [bytearray.fromhex(s)] accepts [s]: blanks are skipped in
    front of every byte, and a byte is two adjacent hexadecimal digits.
    [fuel] bounds the number of steps by the length of the text. *)
Fixpoint fromhex_ok (fuel : nat) (s : string) : bool :=
  match fuel with
  | O => match s with EmptyString => true | _ => false end
  | S fuel' =>
      match s with
      | EmptyString => true
      | String " " s' => fromhex_ok fuel' s'
      | String a (String b s') =>
          is_hex_digit a && is_hex_digit b && fromhex_ok fuel' s'
      | String _ EmptyString => false
      end
  end.

Definition fromhex_accepts (s : string) : bool := fromhex_ok (String.length s) s.

End Py.

(** ** The outside world and the monad of driver runs *)

Open Scope list_scope.

(** What the driver does to the outside world, in the order it does it. *)
Inductive event : Type :=
| SendRaw (cmd : string)        (* ipmitool.send_raw(task, cmd) *)
| ExecIpmitool (cmd : string)   (* ipmitool._exec_ipmitool(driver_info, cmd) *)
| Sleep (secs : nat).           (* time.sleep(secs) *)

Definition World : Type := list event.

Definition is_command (e : event) : bool :=
  match e with
  | Sleep _ => false
  | _ => true
  end.

(** How many commands have gone to the controller so far. *)
Definition ncalls (w : World) : nat := List.length (List.filter is_command w).

(** What one command gives back: its output, or a failure of the transport. *)
Inductive reply : Type :=
| Out (out : string)
| Fails.

(** The controller as the driver sees it: the answer to the [n]-th command. *)
Record Transport : Type := {
  on_raw : nat -> string -> reply;
  on_exec : nat -> string -> reply
}.

Inductive exn : Type :=
| IPMIFailure (cmd : string)
| InstanceDeployFailure (reason : string)
| ProcessExecutionError
| NotImplementedError
| NameError (name : string)
| KeyError (key : string)
| TypeError
| ValueError.

Inductive result (A : Type) : Type :=
| Ret (a : A)
| Raise (e : exn).

Arguments Ret {A} a.
Arguments Raise {A} e.

(** A computation over a world [W]: it returns or raises, and leaves a world. *)
Definition M (W A : Type) : Type := W -> result A * W.

Definition ret {W A} (a : A) : M W A := fun w => (Ret a, w).

Definition raise {W A} (e : exn) : M W A := fun w => (Raise e, w).

Definition bind {W A B} (m : M W A) (k : A -> M W B) : M W B :=
  fun w =>
    match m w with
    | (Ret a, w') => k a w'
    | (Raise e, w') => (Raise e, w')
    end.

(** [try: m  except Exception as e: h e] *)
Definition try_except {W A} (m : M W A) (h : exn -> M W A) : M W A :=
  fun w =>
    match m w with
    | (Ret a, w') => (Ret a, w')
    | (Raise e, w') => h e w'
    end.

Declare Scope py_scope.
Delimit Scope py_scope with py.
Notation "x <- m ;; k" := (bind m (fun x => k))
  (at level 61, m at next level, right associativity) : py_scope.
Notation "m ;; k" := (bind m (fun _ => k))
  (at level 61, right associativity) : py_scope.
Notation "'try' m 'except' h" := (try_except m h)
  (at level 60, m at level 61, h at level 9) : py_scope.
Open Scope py_scope.

(** [int(s, base)] as a step that may raise. *)
Definition int_ {W} (base : Z) (s : string) : M W Z :=
  match Py.int_of_string base s with
  | Some n => ret n
  | None => raise ValueError
  end.

(** [bytearray.fromhex(s)]; only whether it raises matters to the driver. *)
Definition bytearray_fromhex {W} (s : string) : M W unit :=
  if Py.fromhex_accepts s then ret tt else raise ValueError.

(** ['... %d ...' % n]: formatting [None] with [%d] is a [TypeError]. *)
Definition format_d {W} (n : option Z) : M W unit :=
  match n with
  | Some _ => ret tt
  | None => raise TypeError
  end.

(** [d[key]] on a dict with string keys, kept as an association list. *)
Fixpoint dict_get (d : list (string * string)) (key : string) : option string :=
  match d with
  | [] => None
  | (k, v) :: d' => if String.eqb k key then Some v else dict_get d' key
  end.

Definition getitem {W} (d : list (string * string)) (key : string) : M W string :=
  match dict_get d key with
  | Some v => ret v
  | None => raise (KeyError key)
  end.

Section Ipmitool.

Variable tr : Transport.

(** [ipmitool.send_raw]: the command is recorded, then answered. *)
Definition send_raw (cmd : string) : M World string :=
  fun w =>
    match on_raw tr (ncalls w) cmd with
    | Out out => (Ret out, w ++ [SendRaw cmd])
    | Fails => (Raise (IPMIFailure cmd), w ++ [SendRaw cmd])
    end.

(** [ipmitool._exec_ipmitool]: fails with [ProcessExecutionError]. *)
Definition _exec_ipmitool (cmd : string) : M World string :=
  fun w =>
    match on_exec tr (ncalls w) cmd with
    | Out out => (Ret out, w ++ [ExecIpmitool cmd])
    | Fails => (Raise ProcessExecutionError, w ++ [ExecIpmitool cmd])
    end.

End Ipmitool.

(** [time.sleep] *)
Definition sleep (secs : nat) : M World unit :=
  fun w => (Ret tt, w ++ [Sleep secs]).

(** *** A frame whose handler reads a local variable

    An [except] clause sees the local variables of its function as the
    [try] body left them.  Where a handler reads one, the body runs over the
    world paired with the binding of that local; [None] is "not yet
    assigned". *)

Definition in_frame {L A} (m : M World A) : M (World * L) A :=
  fun wl => let (r, w') := m (fst wl) in (r, (w', snd wl)).

Definition store_local {L} (v : L) : M (World * option L) unit :=
  fun wl => (Ret tt, (fst wl, Some v)).

(** Reading an unassigned local is an [UnboundLocalError], a [NameError]. *)
Definition load_local {L} (name : string) : M (World * option L) L :=
  fun wl =>
    match snd wl with
    | Some v => (Ret v, wl)
    | None => (Raise (NameError name), wl)
    end.

(** Running a function body whose local starts unassigned. *)
Definition call_frame {L A} (m : M (World * option L) A) : M World A :=
  fun w => let (r, wl) := m (w, None) in (r, fst wl).

(** ** openbmc_hw.py, class OpenBMCIronicVirtMediaHW *)

(** The one method every hardware family supplies; the methods of the base
    class reach it through [self]. *)
Module Self.
Class IronicVirtMediaHW : Type := {
  get_disk_attachment_status : M World string
}.
End Self.

Module OpenBMCIronicVirtMediaHW.

(** The base class leaves the method abstract. *)
Definition get_disk_attachment_status : M World string :=
  raise NotImplementedError.

Definition abstract : Self.IronicVirtMediaHW :=
  Self.Build_IronicVirtMediaHW get_disk_attachment_status.

(** [hex_convert(string_value)] with [padding=False]. *)
Fixpoint hex_convert (string_value : string) : string :=
  match string_value with
  | EmptyString => EmptyString
  | String x EmptyString => ("0x" ++ Py.encode_hex x)%string
  | String x rest => ("0x" ++ Py.encode_hex x ++ " " ++ hex_convert rest)%string
  end.

(** [s.ljust(length, chr(0))]: NUL bytes on the right up to [length]. *)
Definition ljust (s : string) (length : nat) : string :=
  (s ++ string_of_list_ascii (repeat zero (length - String.length s)))%string.

(** [hex_convert(string_value, padding, length)] *)
Definition hex_convert_padding (string_value : string) (padding : bool) (length : nat)
  : string :=
  let string_value := if padding then ljust string_value length else string_value in
  hex_convert string_value.

Section Methods.

Variable tr : Transport.
Context {self : Self.IronicVirtMediaHW}.

(** The liveness loop of [_issue_bmc_reset]; it gives the value of
    [sleep_count] on leaving the loop. *)
Fixpoint bmc_info_loop (sleep_count : nat) : M World nat :=
  match sleep_count with
  | O => ret O
  | S n =>
      try (_exec_ipmitool tr "bmc info" ;; ret sleep_count)
      except (fun err =>
        match err with
        | ProcessExecutionError => sleep 10 ;; bmc_info_loop n
        | _ => raise err
        end)
  end.

Definition _issue_bmc_reset : M World unit :=
  let cmd := "bmc reset cold" in
  (try (_exec_ipmitool tr cmd ;; ret tt)
   except (fun err =>
     match err with
     | ProcessExecutionError => raise (IPMIFailure cmd)
     | _ => raise err
     end)) ;;
  sleep_count <- bmc_info_loop 10 ;;
  if (sleep_count =? 0)%nat then raise (IPMIFailure "bmc reset") else ret tt.

(** The loop of [_wait_for_cd_mounting]; the status is read before
    [sleep_count] is looked at. *)
Fixpoint mounting_loop (sleep_count : nat) : M World nat :=
  status <- Self.get_disk_attachment_status ;;
  match sleep_count with
  | S n => if status =? "mounting" then sleep 1 ;; mounting_loop n
           else ret sleep_count
  | O => ret O
  end.

(** Gives [True], or [None] after a controller reset. *)
Definition _wait_for_cd_mounting : M World (option bool) :=
  sleep_count <- mounting_loop 10 ;;
  if (0 <? sleep_count)%nat then ret (Some true)
  else _issue_bmc_reset ;; ret None.

Definition check_and_wait_for_cd_mounting (image_filename : string) : M World bool :=
  mount_status <- Self.get_disk_attachment_status ;;
  if mount_status =? "mounting" then
    r <- _wait_for_cd_mounting ;;
    match r with
    | Some true => ret true
    | _ => ret false
    end
  else if mount_status =? "nfserror" then
    raise (InstanceDeployFailure "NFS mount failed!")
  else if mount_status =? "mounted" then
    ret true
  else
    raise (InstanceDeployFailure "NFS mount failed!").

End Methods.

End OpenBMCIronicVirtMediaHW.

(** ** ampere/falcon.py, class FALCON *)

Module FALCON.

(** *** The command catalogue *)

Definition RAW_CHECK_NFS_SERVICE_STATUS : string := "0x32 0xd8 0x06 0x01 0x01 0x00".

Definition RAW_GET_VMEDIA_DEVICE_COUNT (type : string) : string :=
  ("0x32 0xca " ++ type)%string.
Definition RAW_SET_VMEDIA_DEVICE_COUNT (type count : string) : string :=
  ("0x32 0xcb " ++ type ++ " " ++ count)%string.
Definition VMDEIA_DEVICE_TYPE_CD : string := "0x04".
Definition VMDEIA_DEVICE_TYPE_FD : string := "0x05".
Definition VMDEIA_DEVICE_TYPE_HD : string := "0x06".

Definition RAW_GET_VMEDIA_MOUNT_STATUS : string := "0x32 0xca 0x00".
Definition RAW_SET_VMEDIA_MOUNT_STATUS (status : string) : string :=
  ("0x32 0xcb 0x00 " ++ status)%string.

Definition RAW_GET_VMEDIA_STATUS : string := "0x32 0xca 0x08".
Definition RAW_SET_VMEDIA_STATUS (status : string) : string :=
  ("0x32 0xcb 0x08 " ++ status)%string.
Definition RAW_RESTART_VMEDIA : string := "0x32 0xcb 0x0a 0x01".

Definition RAW_RESTART_RIS_CD : string := "0x32 0x9f 0x01 0x0b 0x01".
Definition RAW_SET_RIS_NFS : string := "0x32 0x9f 0x01 0x05 0x00 0x6e 0x66 0x73".
Definition RAW_SET_RIS_NFS_IP (ip : string) : string :=
  ("0x32 0x9f 0x01 0x02 0x00 " ++ ip)%string.
Definition RAW_SET_RIS_NFS_PATH (path : string) : string :=
  ("0x32 0x9f 0x01 0x01 0x01 " ++ path)%string.
Definition RAW_SET_RIS_PROGRESS (flag : string) : string :=
  ("0x32 0x9f 0x01 0x01 0x00 " ++ flag)%string.
Definition RAW_CLEAR_RIS_CONFIG : string := "0x32 0x9f 0x01 0x0d".
Definition RAW_RESTART_RIS : string := "0x32 0x9f 0x08 0x0b".

Definition RAW_GET_MOUNTED_IMG_COUNT : string := "0x32 0xd8 0x00 0x01".
Definition RAW_SET_IMG_NAME (name : string) : string :=
  ("0x32 0xd7 0x01 0x01 0x01 0x01 " ++ name)%string.
Definition RAW_STOP_REDIRECT (index : string) : string :=
  ("0x32 0xd7 0x01 0x01 0x01 0x00 " ++ index)%string.

(** The names the module binds to a plain command string.  The module
    imports names only from [time], [ironic] and the class
    [AmpereIronicVirtMediaHW], so a name read as a global and absent from
    its own assignments is unbound. *)
Definition module_globals : list (string * string) :=
  [ ("RAW_CHECK_NFS_SERVICE_STATUS", RAW_CHECK_NFS_SERVICE_STATUS);
    ("VMDEIA_DEVICE_TYPE_CD", VMDEIA_DEVICE_TYPE_CD);
    ("VMDEIA_DEVICE_TYPE_FD", VMDEIA_DEVICE_TYPE_FD);
    ("VMDEIA_DEVICE_TYPE_HD", VMDEIA_DEVICE_TYPE_HD);
    ("RAW_GET_VMEDIA_MOUNT_STATUS", RAW_GET_VMEDIA_MOUNT_STATUS);
    ("RAW_GET_VMEDIA_STATUS", RAW_GET_VMEDIA_STATUS);
    ("RAW_RESTART_VMEDIA", RAW_RESTART_VMEDIA);
    ("RAW_RESTART_RIS_CD", RAW_RESTART_RIS_CD);
    ("RAW_SET_RIS_NFS", RAW_SET_RIS_NFS);
    ("RAW_CLEAR_RIS_CONFIG", RAW_CLEAR_RIS_CONFIG);
    ("RAW_RESTART_RIS", RAW_RESTART_RIS);
    ("RAW_GET_MOUNTED_IMG_COUNT", RAW_GET_MOUNTED_IMG_COUNT) ].

(** Reading a global name: [NameError] when the module does not bind it. *)
Definition load_global {W} (name : string) : M W string :=
  match dict_get module_globals name with
  | Some v => ret v
  | None => raise (NameError name)
  end.

(** [a != b] where [a] may be [None]. *)
Definition differs (a : option Z) (b : Z) : bool :=
  match a with
  | Some n => negb (n =? b)%Z
  | None => true
  end.

Section Primitives.

Variable tr : Transport.

(** [self.remote_share] *)
Variable remote_share : string.

Definition get_disk_attachment_status : M World string :=
  try (out <- send_raw tr RAW_CHECK_NFS_SERVICE_STATUS ;;
       bytearray_fromhex (Py.strip (Py.remove_newlines out)) ;;
       ret "mounted")
  except (fun _ => ret "nfserror").

(** Gives the count, or [None] when the body raised. *)
Definition _get_virtual_media_device_count (devicetype : string) : M World (option Z) :=
  try (let _num_inst := 0%Z in
       match (if devicetype =? "CD" then Some VMDEIA_DEVICE_TYPE_CD
              else if devicetype =? "FD" then Some VMDEIA_DEVICE_TYPE_FD
              else if devicetype =? "HD" then Some VMDEIA_DEVICE_TYPE_HD
              else None) with
       | None => ret (Some _num_inst)
       | Some _devparam =>
           out <- send_raw tr (RAW_GET_VMEDIA_DEVICE_COUNT _devparam) ;;
           _num_inst <- int_ 10 (Py.strip out) ;;
           ret (Some _num_inst)
       end)
  except (fun _ => ret None).

(** The confirmation loop of [_set_virtual_media_device_count].  The
    debug line formats the count read back with [%d]. *)
Fixpoint device_count_loop (devicetype : string) (devicecount : Z)
         (_conf_device_num : option Z) (_tries : nat) : M World unit :=
  match _tries with
  | O => ret tt
  | S n =>
      if differs _conf_device_num devicecount then
        format_d _conf_device_num ;;
        sleep 5 ;;
        _conf_device_num <- _get_virtual_media_device_count devicetype ;;
        device_count_loop devicetype devicecount _conf_device_num n
      else ret tt
  end.

Definition _set_virtual_media_device_count (devicetype : string) (devicecount : Z)
  : M World bool :=
  if negb ((0 <=? devicecount)%Z && (devicecount <=? 4)%Z) then ret false
  else
    match (if devicetype =? "CD" then Some VMDEIA_DEVICE_TYPE_CD
           else if devicetype =? "HD" then Some VMDEIA_DEVICE_TYPE_HD
           else None) with
    | None => ret false
    | Some _devparam =>
        try (send_raw tr (RAW_SET_VMEDIA_DEVICE_COUNT _devparam (Py.hex devicecount)) ;;
             _conf_device_num <- _get_virtual_media_device_count devicetype ;;
             device_count_loop devicetype devicecount _conf_device_num 40 ;;
             ret true)
        except (fun _ => ret false)
    end.

(** [RAW_GET_VMEDIA_SERVICE_STATUS] is read as a global name. *)
Definition _check_virtual_media_started : M World bool :=
  service_status <-
    try (cmd <- load_global "RAW_GET_VMEDIA_SERVICE_STATUS" ;;
         out <- send_raw tr cmd ;;
         ret (Some (Py.strip out)))
    except (fun _ => ret None) ;;
  ret (match service_status with
       | Some s => s =? "01"
       | None => false
       end).

Definition _start_virtual_media : M World unit :=
  try (send_raw tr (RAW_SET_VMEDIA_STATUS "0x01") ;; ret tt)
  except (fun _ => ret tt).

Definition _restart_virtual_media_service : M World unit :=
  try (send_raw tr RAW_RESTART_VMEDIA ;; ret tt)
  except (fun _ => ret tt).

Definition _restart_ris : M World bool :=
  try (send_raw tr RAW_RESTART_RIS ;; ret true)
  except (fun _ => ret false).

Definition _restart_ris_cd : M World bool :=
  try (send_raw tr RAW_RESTART_RIS_CD ;; ret true)
  except (fun _ => ret false).

(** The loop of [_enable_virtual_media]. *)
Fixpoint started_loop (tries : nat) : M World bool :=
  match tries with
  | O => ret false
  | S n =>
      started <- _check_virtual_media_started ;;
      if started then ret true
      else sleep 5 ;; started_loop n
  end.

Definition _enable_virtual_media : M World bool :=
  started <- _check_virtual_media_started ;;
  if started then ret true
  else
    _start_virtual_media ;;
    _restart_virtual_media_service ;;
    started_loop 60.

Definition _set_nfs_server_ip (driver_info : list (string * string)) : M World unit :=
  try (ip <- getitem driver_info "provisioning_server" ;;
       send_raw tr (RAW_SET_RIS_NFS_IP (OpenBMCIronicVirtMediaHW.hex_convert ip)) ;;
       ret tt)
  except (fun err => raise err).

Definition _set_share_type : M World unit :=
  try (send_raw tr RAW_SET_RIS_NFS ;; ret tt)
  except (fun err => raise err).

(** Falls off its end with [None], or gives [False] from the handler.
    The last assignment of the body binds the name [md]; the name
    [cmd] still holds the path command when the last send reads it. *)
Definition _set_nfs_root_path (driver_info : list (string * string))
  : M World (option bool) :=
  try (let cmd := RAW_SET_RIS_PROGRESS "0x00" in
       send_raw tr cmd ;;
       let cmd := RAW_SET_RIS_PROGRESS "0x01" in
       send_raw tr cmd ;;
       sleep 2 ;;
       let cmd := RAW_SET_RIS_NFS_PATH (OpenBMCIronicVirtMediaHW.hex_convert remote_share) in
       send_raw tr cmd ;;
       sleep 2 ;;
       let md := RAW_SET_RIS_PROGRESS "0x00" in
       send_raw tr cmd ;;
       ret None)
  except (fun _ => ret (Some false)).

Definition _set_setup_nfs (driver_info : list (string * string)) : M World bool :=
  try (_set_share_type ;;
       _set_nfs_server_ip driver_info ;;
       _set_nfs_root_path driver_info ;;
       ret true)
  except (fun _ => ret false).

(** The loop of [_toggle_virtual_device]: [true] is its [return True],
    [false] is leaving the loop with the budget used up. *)
Fixpoint mount_status_loop (status : string) (tries : nat) : M World bool :=
  match tries with
  | O => ret false
  | S n =>
      out <- send_raw tr RAW_GET_VMEDIA_MOUNT_STATUS ;;
      let res := Py.strip out in
      if res =? status then ret true
      else sleep 2 ;; mount_status_loop status n
  end.

(** The handler only logs; control then reaches the final
    [return False], as it does when the loop runs out. *)
Definition _toggle_virtual_device (enabled : bool) : M World bool :=
  try (let status := if enabled then "01" else "00" in
       send_raw tr (RAW_SET_VMEDIA_MOUNT_STATUS ("0x" ++ status)%string) ;;
       mount_status_loop status 60)
  except (fun _ => ret false).

Definition _mount_virtual_device : M World bool := _toggle_virtual_device true.

Definition _demount_virtual_device : M World bool := _toggle_virtual_device false.

Definition _get_mounted_image_count : M World Z :=
  let count := 0%Z in
  try (out <- send_raw tr RAW_GET_MOUNTED_IMG_COUNT ;;
       let out := Py.strip out in
       let data := Py.slice 3 5 out in
       count <- int_ 16 data ;;
       ret count)
  except (fun _ => ret count).

Definition _set_image_name (image_filename : string) : M World bool :=
  try (send_raw tr (RAW_SET_IMG_NAME (OpenBMCIronicVirtMediaHW.hex_convert image_filename)) ;;
       ret true)
  except (fun _ => ret false).

Definition _clear_ris_configuration : M World bool :=
  try (send_raw tr RAW_CLEAR_RIS_CONFIG ;; ret true)
  except (fun _ => ret false).

(** The loop of [_wait_for_mount_count]. *)
Fixpoint mount_count_loop (tries : nat) : M World bool :=
  match tries with
  | O => ret false
  | S n =>
      count <- _get_mounted_image_count ;;
      if (0 <? count)%Z then ret true
      else sleep 10 ;; mount_count_loop n
  end.

Definition _wait_for_mount_count : M World bool := mount_count_loop 60.

(** [for driveindex in range(driveindex, driveindex + count)] of
    [_stop_remote_redirection]; each round assigns the local [driveindex]. *)
Fixpoint stop_redirect_loop (driveindex : Z) (count : nat) : M (World * option Z) unit :=
  match count with
  | O => ret tt
  | S n =>
      store_local driveindex ;;
      in_frame (send_raw tr (RAW_STOP_REDIRECT (Py.hex driveindex))) ;;
      stop_redirect_loop (driveindex + 1) n
  end.

(** [range(0, None)] is a [TypeError]; the handler formats the local
    [driveindex] into its debug line. *)
Definition _stop_remote_redirection : M World unit :=
  call_frame
    (try (_num_inst <- in_frame (_get_virtual_media_device_count "CD") ;;
          match _num_inst with
          | Some n => stop_redirect_loop 0 (Z.to_nat n)
          | None => raise TypeError
          end)
     except (fun _ => load_local "driveindex" ;; ret tt)).

End Primitives.

(** The methods [attach_virtual_cd] calls on [self], over any world. *)
Module Step.
Class methods (W : Type) : Type := {
  _enable_virtual_media : M W bool;
  _toggle_virtual_device : bool -> M W bool;
  _clear_ris_configuration : M W bool;
  _set_setup_nfs : list (string * string) -> M W bool;
  _restart_ris_cd : M W bool;
  _wait_for_mount_count : M W bool;
  _set_image_name : string -> M W bool;
  check_and_wait_for_cd_mounting : string -> M W bool
}.
End Step.

Definition attach_virtual_cd {W} {self : Step.methods W}
           (image_filename : string) (driver_info : list (string * string)) : M W bool :=
  ok <- Step._enable_virtual_media ;;
  if negb ok then ret false else
  ok <- Step._toggle_virtual_device true ;;
  if negb ok then ret false else
  ok <- Step._clear_ris_configuration ;;
  if negb ok then ret false else
  ok <- Step._set_setup_nfs driver_info ;;
  if negb ok then ret false else
  ok <- Step._restart_ris_cd ;;
  if negb ok then ret false else
  ok <- Step._wait_for_mount_count ;;
  if negb ok then ret false else
  ok <- Step._set_image_name image_filename ;;
  if negb ok then ret false else
  Step.check_and_wait_for_cd_mounting image_filename.

(** The class itself: the status method it overrides, and its methods
    bound to a transport. *)
Definition hw (tr : Transport) : Self.IronicVirtMediaHW :=
  Self.Build_IronicVirtMediaHW (get_disk_attachment_status tr).

Definition self (tr : Transport) (remote_share : string) : Step.methods World :=
  {| Step._enable_virtual_media := _enable_virtual_media tr;
     Step._toggle_virtual_device := _toggle_virtual_device tr;
     Step._clear_ris_configuration := _clear_ris_configuration tr;
     Step._set_setup_nfs := _set_setup_nfs tr remote_share;
     Step._restart_ris_cd := _restart_ris_cd tr;
     Step._wait_for_mount_count := _wait_for_mount_count tr;
     Step._set_image_name := _set_image_name tr;
     Step.check_and_wait_for_cd_mounting :=
       OpenBMCIronicVirtMediaHW.check_and_wait_for_cd_mounting (self := hw tr) tr |}.

(** The methods [detach_virtual_cd] calls on [self], over any world. *)
Module Teardown.
Class methods (W : Type) : Type := {
  _enable_virtual_media : M W bool;
  _restart_ris : M W bool;
  _stop_remote_redirection : M W unit;
  _clear_ris_configuration : M W bool;
  _demount_virtual_device : M W bool;
  _set_virtual_media_device_count : string -> Z -> M W bool
}.
End Teardown.

Definition detach_virtual_cd {W} {self : Teardown.methods W} : M W bool :=
  ok <- Teardown._enable_virtual_media ;;
  if negb ok then ret false else
  ok <- Teardown._restart_ris ;;
  if negb ok then ret false else
  Teardown._stop_remote_redirection ;;
  ok <- Teardown._clear_ris_configuration ;;
  if negb ok then ret false else
  ok <- Teardown._demount_virtual_device ;;
  if negb ok then ret false else
  ok <- Teardown._set_virtual_media_device_count "HD" 0 ;;
  if negb ok then ret false else
  ok <- Teardown._set_virtual_media_device_count "CD" 1 ;;
  if negb ok then ret false else
  ret true.

Definition teardown (tr : Transport) : Teardown.methods World :=
  {| Teardown._enable_virtual_media := _enable_virtual_media tr;
     Teardown._restart_ris := _restart_ris tr;
     Teardown._stop_remote_redirection := _stop_remote_redirection tr;
     Teardown._clear_ris_configuration := _clear_ris_configuration tr;
     Teardown._demount_virtual_device := _demount_virtual_device tr;
     Teardown._set_virtual_media_device_count := _set_virtual_media_device_count tr |}.

End FALCON.

(** * The vocabulary of the properties *)

(** The trace of [n] rounds of a poll, each round leaving the events [round]. *)
Fixpoint rounds (n : nat) (round : list event) : list event :=
  match n with
  | O => []
  | S n' => round ++ rounds n' round
  end.

(** The count the controller's answer carries at its fixed offset, if any. *)
Definition image_count_of (r : reply) : option Z :=
  match r with
  | Out out => Py.int_of_string 16 (Py.slice 3 5 (Py.strip out))
  | Fails => None
  end.

(** Whether the answer to the NFS-status command is accepted. *)
Definition nfs_status_parses (r : reply) : bool :=
  match r with
  | Out out => Py.fromhex_accepts (Py.strip (Py.remove_newlines out))
  | Fails => false
  end.

(** The type parameter of a settable device type. *)
Definition devparam (devicetype : string) : string :=
  if devicetype =? "CD" then FALCON.VMDEIA_DEVICE_TYPE_CD else FALCON.VMDEIA_DEVICE_TYPE_HD.

(** The read-back answered at call [n] carries a count other than [devicecount]. *)
Definition reads_other_count (tr : Transport) (devicetype : string) (devicecount : Z)
           (n : nat) : Prop :=
  exists out m,
    on_raw tr n (FALCON.RAW_GET_VMEDIA_DEVICE_COUNT (devparam devicetype)) = Out out
    /\ Py.int_of_string 10 (Py.strip out) = Some m
    /\ m <> devicecount.

(** A controller that keeps four CD slots whatever it is told. *)
Definition stuck_at_four : Transport :=
  {| on_raw := fun _ _ => Out " 04"; on_exec := fun _ _ => Fails |}.

(** The read-back answered at call [n] is not [status]. *)
Definition reads_other_status (tr : Transport) (status : string) (n : nat) : Prop :=
  exists out,
    on_raw tr n FALCON.RAW_GET_VMEDIA_MOUNT_STATUS = Out out
    /\ Py.strip out <> status.

(** A controller that takes the set command, answers two read-backs with
    the old value and drops the third. *)
Definition drops_third_read : Transport :=
  {| on_raw := fun n _ => if (n <? 3)%nat then Out "00" else Fails;
     on_exec := fun _ _ => Fails |}.

(** The stages of an attach, with the arguments they are called on. *)
Inductive stage : Type :=
| EnableMediaService
| ToggleCDDevice (enabled : bool)
| ClearRemoteImageConfig
| ConfigureNetworkShare (driver_info : list (string * string))
| RestartRemoteImageCD
| WaitForImage
| SetImageName (image_filename : string)
| PollDiskStatus (image_filename : string).

(** The fixed order of an attach. *)
Definition attach_order (image_filename : string) (driver_info : list (string * string))
  : list stage :=
  [ EnableMediaService;
    ToggleCDDevice true;
    ClearRemoteImageConfig;
    ConfigureNetworkShare driver_info;
    RestartRemoteImageCD;
    WaitForImage;
    SetImageName image_filename;
    PollDiskStatus image_filename ].

(** An instrumented stage: it writes its name in the log and answers what
    [verdict] says. *)
Definition probe (verdict : stage -> bool) (s : stage) : M (list stage) bool :=
  fun log => (Ret (verdict s), log ++ [s]).

(** Instrumented methods; the last stage ends as [final] says. *)
Definition probes (verdict : stage -> bool) (final : result bool)
  : FALCON.Step.methods (list stage) :=
  {| FALCON.Step._enable_virtual_media := probe verdict EnableMediaService;
     FALCON.Step._toggle_virtual_device := fun enabled => probe verdict (ToggleCDDevice enabled);
     FALCON.Step._clear_ris_configuration := probe verdict ClearRemoteImageConfig;
     FALCON.Step._set_setup_nfs := fun driver_info => probe verdict (ConfigureNetworkShare driver_info);
     FALCON.Step._restart_ris_cd := probe verdict RestartRemoteImageCD;
     FALCON.Step._wait_for_mount_count := probe verdict WaitForImage;
     FALCON.Step._set_image_name := fun name => probe verdict (SetImageName name);
     FALCON.Step.check_and_wait_for_cd_mounting :=
       fun name log => (final, log ++ [PollDiskStatus name]) |}.

(** The stages of [order] up to and including the first one that fails. *)
Fixpoint until_failure (verdict : stage -> bool) (order : list stage) : list stage :=
  match order with
  | [] => []
  | s :: rest => s :: (if verdict s then until_failure verdict rest else [])
  end.

(** The two commands of the recovery: the cold reset and the liveness poll. *)
Definition bmc_reset : event := ExecIpmitool "bmc reset cold".

Definition bmc_info : event := ExecIpmitool "bmc info".

(** A status method that says ['mounting'] however often it is asked. *)
Definition always_mounting (hw : Self.IronicVirtMediaHW) : Prop :=
  forall w, exists w', Self.get_disk_attachment_status w = (Ret "mounting", w').

(** A scripted status method that touches nothing and gives [status]. *)
Definition status_stub (status : string) : Self.IronicVirtMediaHW :=
  Self.Build_IronicVirtMediaHW (ret status).

(** A controller that answers every command. *)
Definition responsive : Transport :=
  {| on_raw := fun _ _ => Out ""; on_exec := fun _ _ => Out "" |}.

(** A stage that succeeds in every world. *)
Definition passes {W} (m : M W bool) : Prop :=
  forall w, exists w', m w = (Ret true, w').

(** Methods whose first seven stages are [stub] and whose status poll is
    the one of the base class over [hw]. *)
Definition with_status_poll (tr : Transport) (hw : Self.IronicVirtMediaHW)
           (stub : M World bool) : FALCON.Step.methods World :=
  {| FALCON.Step._enable_virtual_media := stub;
     FALCON.Step._toggle_virtual_device := fun _ => stub;
     FALCON.Step._clear_ris_configuration := stub;
     FALCON.Step._set_setup_nfs := fun _ => stub;
     FALCON.Step._restart_ris_cd := stub;
     FALCON.Step._wait_for_mount_count := stub;
     FALCON.Step._set_image_name := fun _ => stub;
     FALCON.Step.check_and_wait_for_cd_mounting :=
       OpenBMCIronicVirtMediaHW.check_and_wait_for_cd_mounting (self := hw) tr |}.

(** A controller whose mount bit reads as set from the third command on. *)
Definition set_at_third_command : Transport :=
  {| on_raw := fun n _ => if (n <? 2)%nat then Out "00" else Out " 01";
     on_exec := fun _ _ => Fails |}.

(** A controller that comes back at the third liveness poll. *)
Definition back_at_third_poll : Transport :=
  {| on_raw := fun _ _ => Fails;
     on_exec := fun n cmd =>
       if cmd =? "bmc info" then (if (n <? 3)%nat then Fails else Out "") else Out "" |}.

(** A controller that takes the reset and never answers again. *)
Definition lost_after_reset : Transport :=
  {| on_raw := fun _ _ => Fails;
     on_exec := fun _ cmd => if cmd =? "bmc info" then Fails else Out "" |}.

(** The read-back answered at call [n] carries the count [devicecount]. *)
Definition reads_count (tr : Transport) (devicetype : string) (devicecount : Z)
           (n : nat) : Prop :=
  exists out,
    on_raw tr n (FALCON.RAW_GET_VMEDIA_DEVICE_COUNT (devparam devicetype)) = Out out
    /\ Py.int_of_string 10 (Py.strip out) = Some devicecount.

(** The count a read-back of a device count carries, if any. *)
Definition device_count_of (r : reply) : option Z :=
  match r with
  | Out out => Py.int_of_string 10 (Py.strip out)
  | Fails => None
  end.

(** The type parameter of a device type that can be read, if it is one. *)
Definition readable_devparam (devicetype : string) : option string :=
  if devicetype =? "CD" then Some FALCON.VMDEIA_DEVICE_TYPE_CD
  else if devicetype =? "FD" then Some FALCON.VMDEIA_DEVICE_TYPE_FD
  else if devicetype =? "HD" then Some FALCON.VMDEIA_DEVICE_TYPE_HD
  else None.

(** The read-back answered at call [n] is [status]. *)
Definition reads_status (tr : Transport) (status : string) (n : nat) : Prop :=
  exists out,
    on_raw tr n FALCON.RAW_GET_VMEDIA_MOUNT_STATUS = Out out
    /\ Py.strip out = status.

(** A controller whose mount bit never reads as set. *)
Definition never_set : Transport :=
  {| on_raw := fun _ _ => Out "00"; on_exec := fun _ _ => Fails |}.

(** A controller that answers nothing. *)
Definition silent : Transport :=
  {| on_raw := fun _ _ => Fails; on_exec := fun _ _ => Fails |}.

(** The image count the controller gives at call [n]. *)
Definition image_count_at (tr : Transport) (n : nat) : option Z :=
  image_count_of (on_raw tr n FALCON.RAW_GET_MOUNTED_IMG_COUNT).

(** At call [n] no image shows: the count is not positive, or there is none. *)
Definition no_image (tr : Transport) (n : nat) : Prop :=
  forall c, image_count_at tr n = Some c -> (c <= 0)%Z.

(** At call [n] the controller shows at least one image. *)
Definition image_present (tr : Transport) (n : nat) : Prop :=
  exists c, image_count_at tr n = Some c /\ (0 < c)%Z.

(** A controller that shows one image from its third answer on. *)
Definition image_at_third_poll : Transport :=
  {| on_raw := fun n _ => if (n <? 2)%nat then Out "00 00" else Out "00 01";
     on_exec := fun _ _ => Fails |}.

(** A controller that answers everything but the NFS server address. *)
Definition refuses_server_ip : Transport :=
  {| on_raw := fun n _ => if (n =? 1)%nat then Fails else Out "";
     on_exec := fun _ _ => Fails |}.

(** A controller that takes share type and server address and then fails. *)
Definition refuses_path : Transport :=
  {| on_raw := fun n _ => if (n <? 2)%nat then Out "" else Fails;
     on_exec := fun _ _ => Fails |}.



(** The stages of a detach, with the arguments they are called on. *)
Inductive teardown_stage : Type :=
| TeardownEnableMedia
| TeardownRestartRIS
| TeardownStopRedirection
| TeardownClearConfig
| TeardownDemount
| TeardownSetDeviceCount (devicetype : string) (devicecount : Z).

(** The stages of a detach that answer with a verdict, in their order:
    those before the stop of redirection and those after it. *)
Definition detach_head : list teardown_stage :=
  [ TeardownEnableMedia; TeardownRestartRIS ].

Definition detach_tail : list teardown_stage :=
  [ TeardownClearConfig; TeardownDemount;
    TeardownSetDeviceCount "HD" 0; TeardownSetDeviceCount "CD" 1 ].

(** Instrumented detach methods; the stop of redirection ends as [stop] says. *)
Definition teardown_probes (verdict : teardown_stage -> bool) (stop : result unit)
  : FALCON.Teardown.methods (list teardown_stage) :=
  let probe s := fun log => (Ret (verdict s), log ++ [s]) in
  {| FALCON.Teardown._enable_virtual_media := probe TeardownEnableMedia;
     FALCON.Teardown._restart_ris := probe TeardownRestartRIS;
     FALCON.Teardown._stop_remote_redirection :=
       fun log => (stop, log ++ [TeardownStopRedirection]);
     FALCON.Teardown._clear_ris_configuration := probe TeardownClearConfig;
     FALCON.Teardown._demount_virtual_device := probe TeardownDemount;
     FALCON.Teardown._set_virtual_media_device_count :=
       fun devicetype devicecount => probe (TeardownSetDeviceCount devicetype devicecount) |}.

(** The stages of [order] up to and including the first one that fails. *)
Fixpoint teardown_until_failure (verdict : teardown_stage -> bool)
         (order : list teardown_stage) : list teardown_stage :=
  match order with
  | [] => []
  | s :: rest => s :: (if verdict s then teardown_until_failure verdict rest else [])
  end.

(** How many seconds-long sleeps a trace holds. *)
Definition nsleeps (w : World) : nat :=
  List.length (List.filter (fun e => negb (is_command e)) w).

(** A scripted status method: it touches nothing and gives the status that
    [script] holds for the number of sleeps gone by. *)
Definition timed_status (script : nat -> string) : Self.IronicVirtMediaHW :=
  Self.Build_IronicVirtMediaHW (fun w => (Ret (script (nsleeps w)), w)).

(** The value of one hexadecimal digit character. *)
Definition unhex_char (c : ascii) : nat :=
  let n := nat_of_ascii c in
  if (n <? 58)%nat then n - 48 else n - 87.

(** The byte that a two-digit token of [hex_convert] stands for. *)
Definition unhex_byte (token : string) : option ascii :=
  match token with
  | String "0" (String "x" (String a (String b EmptyString))) =>
      Some (ascii_of_nat (16 * unhex_char a + unhex_char b))
  | _ => None
  end.

(** The bytes of a command text made by [hex_convert]: tokens of four
    characters, one blank between two of them. *)
Fixpoint unhex (fuel : nat) (text : string) : option string :=
  match fuel with
  | O => None
  | S fuel' =>
      match text with
      | EmptyString => Some EmptyString
      | String a (String b (String c (String d rest))) =>
          match unhex_byte (String a (String b (String c (String d EmptyString)))) with
          | Some byte =>
              match rest with
              | EmptyString => Some (String byte EmptyString)
              | String " " rest' =>
                  match rest' with
                  | EmptyString => None
                  | _ => option_map (String byte) (unhex fuel' rest')
                  end
              | _ => None
              end
          | None => None
          end
      | _ => None
      end
  end.

(** The tokens that [n] NUL bytes of padding add to a command text. *)
Fixpoint nul_tokens (n : nat) : string :=
  match n with
  | O => EmptyString
  | S n' => (" 0x00" ++ nul_tokens n')%string
  end.

(** A status script: ['mounting'] until [k] sleeps have gone by, then [status]. *)
Definition turns_after (k : nat) (status : string) : nat -> string :=
  fun slept => if (slept <? k)%nat then "mounting" else status.

(** * Properties *)

(** ** Counting commands in a trace *)

Lemma ncalls_app (w1 w2 : World) : ncalls (w1 ++ w2) = ncalls w1 + ncalls w2.
Proof.
  unfold ncalls. rewrite filter_app, length_app. reflexivity.
Qed.

Lemma ncalls_send (w : World) (cmd : string) : ncalls (w ++ [SendRaw cmd]) = S (ncalls w).
Proof. rewrite ncalls_app. change (ncalls [SendRaw cmd]) with 1. lia. Qed.

Lemma ncalls_exec (w : World) (cmd : string) : ncalls (w ++ [ExecIpmitool cmd]) = S (ncalls w).
Proof. rewrite ncalls_app. change (ncalls [ExecIpmitool cmd]) with 1. lia. Qed.

Lemma ncalls_sleep (w : World) (secs : nat) : ncalls (w ++ [Sleep secs]) = ncalls w.
Proof. rewrite ncalls_app. change (ncalls [Sleep secs]) with 0. lia. Qed.

Create Rewrite HintDb calls.
#[local] Hint Rewrite ncalls_send ncalls_exec ncalls_sleep : calls.

(** ** Slot counts *)

(** C6: a slot count outside 0-4, or a device type other than CD and HD
    (floppy among them), makes [_set_virtual_media_device_count] give
    [False] with the trace untouched: nothing went through the transport. *)
Theorem set_device_count_rejects_without_transport
        (tr : Transport) (devicetype : string) (devicecount : Z) (w : World) :
  (devicecount < 0 \/ 4 < devicecount \/ (devicetype <> "CD" /\ devicetype <> "HD"))%Z ->
  FALCON._set_virtual_media_device_count tr devicetype devicecount w = (Ret false, w).
Proof.
  intros H. unfold FALCON._set_virtual_media_device_count.
  destruct ((0 <=? devicecount)%Z && (devicecount <=? 4)%Z) eqn:Hrange; simpl.
  - apply andb_true_iff in Hrange. destruct Hrange as [H0 H4].
    apply Z.leb_le in H0. apply Z.leb_le in H4.
    destruct H as [H | [H | [Hcd Hhd]]]; try lia.
    apply String.eqb_neq in Hcd. apply String.eqb_neq in Hhd.
    rewrite Hcd, Hhd. reflexivity.
  - reflexivity.
Qed.

Lemma set_device_count_rejects_witness :
  FALCON._set_virtual_media_device_count
    {| on_raw := fun _ _ => Out "01"; on_exec := fun _ _ => Fails |} "FD" 1 []
  = (Ret false, [])
  /\ FALCON._set_virtual_media_device_count
       {| on_raw := fun _ _ => Out "01"; on_exec := fun _ _ => Fails |} "CD" 5 []
     = (Ret false, []).
Proof.
  split.
  - apply set_device_count_rejects_without_transport.
    right. right. split; discriminate.
  - apply set_device_count_rejects_without_transport.
    right. left. lia.
Defined.

(** ** The count of mounted images *)

(** C7: [_get_mounted_image_count] always returns, never raises: it sends
    its one command and gives the count parsed from bytes 3-4 of the
    stripped answer when they read as a hexadecimal integer, and 0 in every
    other case (transport failure, short or malformed answer). *)
Theorem get_mounted_image_count_total (tr : Transport) (w : World) :
  FALCON._get_mounted_image_count tr w =
  (Ret (match image_count_of (on_raw tr (ncalls w) FALCON.RAW_GET_MOUNTED_IMG_COUNT) with
        | Some n => n
        | None => 0%Z
        end),
   w ++ [SendRaw FALCON.RAW_GET_MOUNTED_IMG_COUNT]).
Proof.
  unfold FALCON._get_mounted_image_count, try_except, bind, send_raw, image_count_of.
  destruct (on_raw tr (ncalls w) FALCON.RAW_GET_MOUNTED_IMG_COUNT) as [out|].
  - unfold int_.
    destruct (Py.int_of_string 16 (Py.slice 3 5 (Py.strip out))); reflexivity.
  - reflexivity.
Qed.

Example image_count_short_answer :
  image_count_of (Out "00") = None /\ image_count_of (Out "") = None.
Proof. split; reflexivity. Qed.

Example image_count_malformed_answer :
  image_count_of (Out "00 zz") = None /\ image_count_of (Out "00 0x") = None.
Proof. split; reflexivity. Qed.

Example image_count_parsed :
  image_count_of (Out (" 00 1f 00" ++ String (ascii_of_nat 10) "")%string) = Some 31%Z.
Proof. reflexivity. Qed.

(** ** The disk-attachment status of FALCON *)

Lemma falcon_status (tr : Transport) (w : World) :
  FALCON.get_disk_attachment_status tr w =
  (Ret (if nfs_status_parses (on_raw tr (ncalls w) FALCON.RAW_CHECK_NFS_SERVICE_STATUS)
        then "mounted" else "nfserror"),
   w ++ [SendRaw FALCON.RAW_CHECK_NFS_SERVICE_STATUS]).
Proof.
  unfold FALCON.get_disk_attachment_status, try_except, bind, send_raw, nfs_status_parses.
  destruct (on_raw tr (ncalls w) FALCON.RAW_CHECK_NFS_SERVICE_STATUS) as [out|].
  - unfold bytearray_fromhex.
    destruct (Py.fromhex_accepts (Py.strip (Py.remove_newlines out))); reflexivity.
  - reflexivity.
Qed.

(** C10: whatever the transport does, FALCON's [get_disk_attachment_status]
    gives ['mounted'] when the NFS-status command succeeds and its output is
    accepted, and ['nfserror'] otherwise, so never ['mounting']; and a
    FALCON run of [check_and_wait_for_cd_mounting] consists of that one
    status command alone: no wait, no sleep, no controller reset. *)
Theorem falcon_status_is_never_mounting (tr : Transport) (image_filename : string) (w : World) :
  let ok := nfs_status_parses (on_raw tr (ncalls w) FALCON.RAW_CHECK_NFS_SERVICE_STATUS) in
  FALCON.get_disk_attachment_status tr w =
    (Ret (if ok then "mounted" else "nfserror"),
     w ++ [SendRaw FALCON.RAW_CHECK_NFS_SERVICE_STATUS])
  /\ fst (FALCON.get_disk_attachment_status tr w) <> Ret "mounting"
  /\ OpenBMCIronicVirtMediaHW.check_and_wait_for_cd_mounting
       (self := FALCON.hw tr) tr image_filename w =
     (if ok then Ret true else Raise (InstanceDeployFailure "NFS mount failed!"),
      w ++ [SendRaw FALCON.RAW_CHECK_NFS_SERVICE_STATUS]).
Proof.
  intros ok. subst ok. split; [apply falcon_status|]. split.
  - rewrite falcon_status. simpl.
    destruct (nfs_status_parses _); discriminate.
  - unfold OpenBMCIronicVirtMediaHW.check_and_wait_for_cd_mounting, bind.
    simpl Self.get_disk_attachment_status. rewrite falcon_status.
    destruct (nfs_status_parses _); reflexivity.
Qed.

(** ** Starting the media service *)

(** The status check reads an unbound global: the [NameError] is caught by
    its own handler, no command is sent, and the check says [False]. *)
Lemma check_virtual_media_started_unbound (tr : Transport) (w : World) :
  FALCON._check_virtual_media_started tr w = (Ret false, w).
Proof. reflexivity. Qed.

Lemma started_loop_runs_out (tr : Transport) (tries : nat) (w : World) :
  FALCON.started_loop tr tries w = (Ret false, w ++ rounds tries [Sleep 5]).
Proof.
  revert w. induction tries as [|n IH]; intros w; simpl.
  - rewrite app_nil_r. reflexivity.
  - unfold bind at 1. rewrite check_virtual_media_started_unbound.
    unfold bind at 1. unfold sleep at 1. rewrite IH, <- app_assoc. reflexivity.
Qed.

(** What a run of [_enable_virtual_media] does, on every transport. *)
Lemma enable_virtual_media_run (tr : Transport) (w : World) :
  FALCON._enable_virtual_media tr w =
  (Ret false,
   w ++ [SendRaw (FALCON.RAW_SET_VMEDIA_STATUS "0x01"); SendRaw FALCON.RAW_RESTART_VMEDIA]
     ++ rounds 60 [Sleep 5]).
Proof.
  unfold FALCON._enable_virtual_media.
  unfold bind at 1. rewrite check_virtual_media_started_unbound.
  assert (Hstart : forall w0, FALCON._start_virtual_media tr w0 =
                   (Ret tt, w0 ++ [SendRaw (FALCON.RAW_SET_VMEDIA_STATUS "0x01")])).
  { intros w0. unfold FALCON._start_virtual_media, try_except, bind, send_raw.
    destruct (on_raw tr (ncalls w0) _); reflexivity. }
  assert (Hrestart : forall w0, FALCON._restart_virtual_media_service tr w0 =
                     (Ret tt, w0 ++ [SendRaw FALCON.RAW_RESTART_VMEDIA])).
  { intros w0. unfold FALCON._restart_virtual_media_service, try_except, bind, send_raw.
    destruct (on_raw tr (ncalls w0) _); reflexivity. }
  cbv beta iota. unfold bind. rewrite Hstart, Hrestart, started_loop_runs_out.
  rewrite <- !app_assoc. reflexivity.
Qed.

(** C2, as the code runs: whatever the controller would answer,
    [_enable_virtual_media] never sends a status read; it sends the enable
    and the restart commands, sleeps sixty times five seconds and gives
    [False]. *)
Theorem enable_virtual_media_never_confirms (tr : Transport) (w : World) :
  FALCON._enable_virtual_media tr w =
  (Ret false,
   w ++ [SendRaw (FALCON.RAW_SET_VMEDIA_STATUS "0x01"); SendRaw FALCON.RAW_RESTART_VMEDIA]
     ++ rounds 60 [Sleep 5]).
Proof. exact (enable_virtual_media_run tr w). Qed.

(** ** The NFS root path *)

(** C5, as the code runs: when every send succeeds, [_set_nfs_root_path]
    sends clear, set, path and then the path command a second time; the
    closing progress-flag clear is never sent. *)
Theorem set_nfs_root_path_sends_path_twice
        (tr : Transport) (remote_share : string) (driver_info : list (string * string))
        (w : World) :
  (forall n cmd, on_raw tr n cmd <> Fails) ->
  let path := FALCON.RAW_SET_RIS_NFS_PATH (OpenBMCIronicVirtMediaHW.hex_convert remote_share) in
  FALCON._set_nfs_root_path tr remote_share driver_info w =
  (Ret None,
   w ++ [SendRaw (FALCON.RAW_SET_RIS_PROGRESS "0x00");
         SendRaw (FALCON.RAW_SET_RIS_PROGRESS "0x01");
         Sleep 2;
         SendRaw path;
         Sleep 2;
         SendRaw path]).
Proof.
  intros Hok path.
  assert (Hsend : forall cmd w0, exists out, send_raw tr cmd w0 = (Ret out, w0 ++ [SendRaw cmd])).
  { intros cmd w0. unfold send_raw. specialize (Hok (ncalls w0) cmd).
    destruct (on_raw tr (ncalls w0) cmd) as [out|]; [eauto | congruence]. }
  unfold FALCON._set_nfs_root_path, try_except.
  repeat (unfold bind at 1;
          match goal with
          | |- context [send_raw tr ?c ?w0] =>
              let o := fresh "out" in
              let E := fresh "E" in
              destruct (Hsend c w0) as [o E]; rewrite E
          | |- context [sleep ?n ?w0] => unfold sleep at 1
          end).
  unfold ret. rewrite <- !app_assoc. reflexivity.
Qed.

Lemma set_nfs_root_path_witness :
  FALCON._set_nfs_root_path
    {| on_raw := fun _ _ => Out ""; on_exec := fun _ _ => Fails |} "/r/" [] [] =
  (Ret None,
   [SendRaw "0x32 0x9f 0x01 0x01 0x00 0x00";
    SendRaw "0x32 0x9f 0x01 0x01 0x00 0x01";
    Sleep 2;
    SendRaw "0x32 0x9f 0x01 0x01 0x01 0x2f 0x72 0x2f";
    Sleep 2;
    SendRaw "0x32 0x9f 0x01 0x01 0x01 0x2f 0x72 0x2f"]).
Proof.
  apply (set_nfs_root_path_sends_path_twice
           {| on_raw := fun _ _ => Out ""; on_exec := fun _ _ => Fails |} "/r/" [] []).
  intros n cmd. simpl. discriminate.
Defined.

(** ** Confirming a slot count *)

Section DeviceCount.

Variable tr : Transport.
Variables (devicetype : string) (devicecount : Z).
Hypothesis settable : devicetype = "CD" \/ devicetype = "HD".
Hypothesis never_confirmed : forall n, reads_other_count tr devicetype devicecount n.

Let get : string := FALCON.RAW_GET_VMEDIA_DEVICE_COUNT (devparam devicetype).

Lemma get_device_count_other (w : World) :
  exists m, m <> devicecount
    /\ FALCON._get_virtual_media_device_count tr devicetype w = (Ret (Some m), w ++ [SendRaw get]).
Proof.
  destruct (never_confirmed (ncalls w)) as (out & m & Hout & Hint & Hm).
  exists m. split; [exact Hm|].
  unfold FALCON._get_virtual_media_device_count, try_except, bind, send_raw, int_.
  subst get. unfold devparam in *.
  destruct settable as [-> | ->]; simpl in *; rewrite Hout, Hint; reflexivity.
Qed.

Lemma device_count_loop_runs_out (tries : nat) :
  forall (m : Z) (w : World), m <> devicecount ->
    FALCON.device_count_loop tr devicetype devicecount (Some m) tries w =
    (Ret tt, w ++ rounds tries [Sleep 5; SendRaw get]).
Proof.
  induction tries as [|n IH]; intros m w Hm.
  - simpl. rewrite app_nil_r. reflexivity.
  - cbn [FALCON.device_count_loop FALCON.differs rounds].
    pose proof Hm as Hneq. apply Z.eqb_neq in Hneq. rewrite Hneq.
    cbn [negb format_d].
    unfold bind at 1. unfold ret at 1.
    unfold bind at 1. unfold sleep at 1.
    unfold bind at 1.
    destruct (get_device_count_other (w ++ [Sleep 5])) as (m' & Hm' & E).
    rewrite E, (IH m' _ Hm'), <- !app_assoc. reflexivity.
Qed.

End DeviceCount.

(** C1, as the code runs: for a settable type and a count in 0-4, when the
    set command succeeds and every read-back carries some other count,
    [_set_virtual_media_device_count] reads the count back forty-one times
    (once, then once after each of forty sleeps) and then gives [True]. *)
Theorem set_device_count_unconfirmed_gives_true
        (tr : Transport) (devicetype : string) (devicecount : Z) (w : World) :
  devicetype = "CD" \/ devicetype = "HD" ->
  (0 <= devicecount <= 4)%Z ->
  on_raw tr (ncalls w)
         (FALCON.RAW_SET_VMEDIA_DEVICE_COUNT (devparam devicetype) (Py.hex devicecount)) <> Fails ->
  (forall n, reads_other_count tr devicetype devicecount n) ->
  let get := SendRaw (FALCON.RAW_GET_VMEDIA_DEVICE_COUNT (devparam devicetype)) in
  FALCON._set_virtual_media_device_count tr devicetype devicecount w =
  (Ret true,
   w ++ [SendRaw (FALCON.RAW_SET_VMEDIA_DEVICE_COUNT (devparam devicetype) (Py.hex devicecount));
         get]
     ++ rounds 40 [Sleep 5; get]).
Proof.
  intros Htype Hrange Hset Hnever get.
  unfold FALCON._set_virtual_media_device_count.
  replace ((0 <=? devicecount)%Z && (devicecount <=? 4)%Z) with true
    by (symmetry; apply andb_true_iff; split; apply Z.leb_le; lia).
  cbv beta iota delta [negb].
  assert (Hparam :
    (if devicetype =? "CD" then Some FALCON.VMDEIA_DEVICE_TYPE_CD
     else if devicetype =? "HD" then Some FALCON.VMDEIA_DEVICE_TYPE_HD else None)
    = Some (devparam devicetype)).
  { unfold devparam. destruct Htype as [-> | ->]; reflexivity. }
  rewrite Hparam.
  unfold try_except. unfold bind at 1. unfold send_raw at 1.
  destruct (on_raw tr (ncalls w) _) as [out|]; [|congruence].
  unfold bind at 1.
  destruct (@get_device_count_other tr devicetype devicecount Htype Hnever (w ++ [SendRaw
    (FALCON.RAW_SET_VMEDIA_DEVICE_COUNT (devparam devicetype) (Py.hex devicecount))]))
    as (m & Hm & E).
  rewrite E. unfold bind at 1.
  rewrite (@device_count_loop_runs_out tr devicetype devicecount Htype Hnever 40 _ _ Hm).
  unfold ret. subst get. rewrite <- !app_assoc. reflexivity.
Qed.

Lemma set_device_count_unconfirmed_witness :
  FALCON._set_virtual_media_device_count stuck_at_four "CD" 1 [] =
  (Ret true,
   [SendRaw "0x32 0xcb 0x04 0x1"; SendRaw "0x32 0xca 0x04"]
     ++ rounds 40 [Sleep 5; SendRaw "0x32 0xca 0x04"]).
Proof.
  apply (set_device_count_unconfirmed_gives_true stuck_at_four "CD" 1 []).
  - left. reflexivity.
  - lia.
  - simpl. discriminate.
  - intros n. exists " 04", 4%Z. repeat split. lia.
Defined.

(** A read-back that carries the requested count ends the call at once. *)
Example set_device_count_confirmed :
  FALCON._set_virtual_media_device_count
    {| on_raw := fun _ _ => Out " 01"; on_exec := fun _ _ => Fails |} "CD" 1 [] =
  (Ret true, [SendRaw "0x32 0xcb 0x04 0x1"; SendRaw "0x32 0xca 0x04"]).
Proof. reflexivity. Qed.

(** A read-back that fails is formatted with [%d] in the loop's debug line:
    the [TypeError] ends the call with [False] after one read-back. *)
Example set_device_count_readback_error :
  FALCON._set_virtual_media_device_count
    {| on_raw := fun n _ => if (n =? 0)%nat then Out "" else Fails;
       on_exec := fun _ _ => Fails |} "HD" 0 [] =
  (Ret false, [SendRaw "0x32 0xcb 0x06 0x0"; SendRaw "0x32 0xca 0x06"]).
Proof. reflexivity. Qed.

(** ** The mount bit *)

Lemma mount_status_loop_read_error (tr : Transport) (status : string) (k : nat) :
  forall (tries : nat) (w : World),
    k < tries ->
    (forall j, j < k -> reads_other_status tr status (ncalls w + j)) ->
    on_raw tr (ncalls w + k) FALCON.RAW_GET_VMEDIA_MOUNT_STATUS = Fails ->
    FALCON.mount_status_loop tr status tries w =
    (Raise (IPMIFailure FALCON.RAW_GET_VMEDIA_MOUNT_STATUS),
     w ++ rounds k [SendRaw FALCON.RAW_GET_VMEDIA_MOUNT_STATUS; Sleep 2]
       ++ [SendRaw FALCON.RAW_GET_VMEDIA_MOUNT_STATUS]).
Proof.
  induction k as [|k IH]; intros tries w Hlt Hother Hfail;
    destruct tries as [|n]; try lia; simpl.
  - rewrite Nat.add_0_r in Hfail.
    unfold bind, send_raw. rewrite Hfail. reflexivity.
  - destruct (Hother 0) as (out & Hout & Hne); [lia|].
    rewrite Nat.add_0_r in Hout.
    unfold bind at 1. unfold send_raw at 1. rewrite Hout.
    apply String.eqb_neq in Hne. rewrite Hne.
    unfold bind at 1. unfold sleep at 1.
    rewrite IH.
    + rewrite <- !app_assoc. reflexivity.
    + lia.
    + intros j Hj. autorewrite with calls.
      replace (S (ncalls w) + j) with (ncalls w + S j) by lia.
      apply Hother. lia.
    + autorewrite with calls.
      replace (S (ncalls w) + k) with (ncalls w + S k) by lia. exact Hfail.
Qed.

(** C3, as the code runs: when the set command succeeds, the first [k]
    read-backs (with [k < 60]) do not match and the next read-back fails in
    the transport, [_toggle_virtual_device] gives [False] at once, after
    [k + 1] read-backs, with the rest of its sixty attempts unused. *)
Theorem toggle_virtual_device_read_error_is_fatal
        (tr : Transport) (enabled : bool) (k : nat) (w : World) :
  let status := if enabled then "01" else "00" in
  let set := FALCON.RAW_SET_VMEDIA_MOUNT_STATUS ("0x" ++ status)%string in
  let get := SendRaw FALCON.RAW_GET_VMEDIA_MOUNT_STATUS in
  k < 60 ->
  on_raw tr (ncalls w) set <> Fails ->
  (forall j, j < k -> reads_other_status tr status (S (ncalls w) + j)) ->
  on_raw tr (S (ncalls w) + k) FALCON.RAW_GET_VMEDIA_MOUNT_STATUS = Fails ->
  FALCON._toggle_virtual_device tr enabled w =
  (Ret false, w ++ [SendRaw set] ++ rounds k [get; Sleep 2] ++ [get]).
Proof.
  intros status set get Hk Hset Hother Hfail.
  unfold FALCON._toggle_virtual_device, try_except.
  fold status. fold set.
  unfold bind at 1. unfold send_raw at 1.
  destruct (on_raw tr (ncalls w) set) as [out|]; [|congruence].
  rewrite (@mount_status_loop_read_error tr status k 60 (w ++ [SendRaw set])).
  - unfold ret. subst get. rewrite <- !app_assoc. reflexivity.
  - exact Hk.
  - intros j Hj. autorewrite with calls. apply Hother. exact Hj.
  - autorewrite with calls. exact Hfail.
Qed.

Lemma toggle_virtual_device_read_error_witness :
  FALCON._toggle_virtual_device drops_third_read true [] =
  (Ret false,
   [SendRaw "0x32 0xcb 0x00 0x01";
    SendRaw "0x32 0xca 0x00"; Sleep 2;
    SendRaw "0x32 0xca 0x00"; Sleep 2;
    SendRaw "0x32 0xca 0x00"]).
Proof.
  apply (toggle_virtual_device_read_error_is_fatal drops_third_read true 2 []).
  - lia.
  - simpl. discriminate.
  - intros j Hj. exists "00". split.
    + simpl. destruct j as [|[|j]]; try reflexivity. lia.
    + discriminate.
  - reflexivity.
Defined.

(** ** The order of the attach stages *)

(** C4: with every stage instrumented, [attach_virtual_cd] runs the stages
    in the fixed order enable media service, enable CD device, clear
    remote-image config, configure network share, restart remote-image CD
    service, wait for image, set image name, poll disk status; it stops
    right after the first stage that fails and then gives [False]; when the
    first seven succeed, it ends as the status poll ends. *)
Theorem attach_virtual_cd_stage_order
        (verdict : stage -> bool) (final : result bool)
        (image_filename : string) (driver_info : list (string * string))
        (log : list stage) :
  FALCON.attach_virtual_cd (self := probes verdict final) image_filename driver_info log =
  (if forallb verdict (firstn 7 (attach_order image_filename driver_info))
   then final else Ret false,
   log ++ until_failure verdict (attach_order image_filename driver_info)).
Proof.
  unfold FALCON.attach_virtual_cd, attach_order.
  cbn [probes FALCON.Step._enable_virtual_media FALCON.Step._toggle_virtual_device
       FALCON.Step._clear_ris_configuration FALCON.Step._set_setup_nfs
       FALCON.Step._restart_ris_cd FALCON.Step._wait_for_mount_count
       FALCON.Step._set_image_name FALCON.Step.check_and_wait_for_cd_mounting
       firstn forallb until_failure].
  repeat (unfold bind at 1; unfold probe at 1; cbv beta iota;
          match goal with
          | |- context [negb (verdict ?s)] =>
              destruct (verdict s); cbn [negb andb];
              [| unfold ret; rewrite <- ?app_assoc; reflexivity]
          end).
  rewrite <- !app_assoc.
  destruct (verdict (PollDiskStatus image_filename)); reflexivity.
Qed.

Example attach_stops_at_network_share :
  FALCON.attach_virtual_cd
    (self := probes (fun s => match s with ConfigureNetworkShare _ => false | _ => true end)
                    (Ret true))
    "boot.iso" [] [] =
  (Ret false,
   [EnableMediaService; ToggleCDDevice true; ClearRemoteImageConfig; ConfigureNetworkShare []]).
Proof. reflexivity. Qed.


(** ** The controller reset *)

Section Reset.

Variable tr : Transport.

Lemma exec_fails (cmd : string) (w : World) :
  on_exec tr (ncalls w) cmd = Fails ->
  _exec_ipmitool tr cmd w = (Raise ProcessExecutionError, w ++ [ExecIpmitool cmd]).
Proof. intros H. unfold _exec_ipmitool. rewrite H. reflexivity. Qed.

Lemma exec_answers (cmd : string) (w : World) :
  on_exec tr (ncalls w) cmd <> Fails ->
  exists out, _exec_ipmitool tr cmd w = (Ret out, w ++ [ExecIpmitool cmd]).
Proof.
  intros H. unfold _exec_ipmitool.
  destruct (on_exec tr (ncalls w) cmd) as [out|]; [eauto | congruence].
Qed.

(** The liveness poll answers at its [k]-th retry. *)
Lemma bmc_info_loop_answers (k : nat) :
  forall (sleep_count : nat) (w : World),
    k < sleep_count ->
    (forall j, j < k -> on_exec tr (ncalls w + j) "bmc info" = Fails) ->
    on_exec tr (ncalls w + k) "bmc info" <> Fails ->
    OpenBMCIronicVirtMediaHW.bmc_info_loop tr sleep_count w =
    (Ret (sleep_count - k), w ++ rounds k [bmc_info; Sleep 10] ++ [bmc_info]).
Proof.
  induction k as [|k IH]; intros sleep_count w Hlt Hfail Hok;
    destruct sleep_count as [|n]; try lia;
    cbn [OpenBMCIronicVirtMediaHW.bmc_info_loop rounds].
  - rewrite Nat.add_0_r in Hok.
    destruct (exec_answers "bmc info" w Hok) as [out E].
    unfold try_except, bind. rewrite E. reflexivity.
  - unfold try_except, bind at 1.
    rewrite exec_fails by (rewrite <- (Nat.add_0_r (ncalls w)); apply Hfail; lia).
    unfold bind at 1. unfold sleep at 1.
    rewrite IH.
    + rewrite <- !app_assoc. reflexivity.
    + lia.
    + intros j Hj. autorewrite with calls.
      replace (S (ncalls w) + j) with (ncalls w + S j) by lia. apply Hfail. lia.
    + autorewrite with calls.
      replace (S (ncalls w) + k) with (ncalls w + S k) by lia. exact Hok.
Qed.

(** The liveness poll never answers. *)
Lemma bmc_info_loop_lost (sleep_count : nat) :
  forall (w : World),
    (forall j, j < sleep_count -> on_exec tr (ncalls w + j) "bmc info" = Fails) ->
    OpenBMCIronicVirtMediaHW.bmc_info_loop tr sleep_count w =
    (Ret 0, w ++ rounds sleep_count [bmc_info; Sleep 10]).
Proof.
  induction sleep_count as [|n IH]; intros w Hfail;
    cbn [OpenBMCIronicVirtMediaHW.bmc_info_loop rounds].
  - rewrite app_nil_r. reflexivity.
  - unfold try_except, bind at 1.
    rewrite exec_fails by (rewrite <- (Nat.add_0_r (ncalls w)); apply Hfail; lia).
    unfold bind at 1. unfold sleep at 1.
    rewrite IH.
    + rewrite <- !app_assoc. reflexivity.
    + intros j Hj. autorewrite with calls.
      replace (S (ncalls w) + j) with (ncalls w + S j) by lia. apply Hfail. lia.
Qed.

(** The liveness poll always leaves its loop, and only adds to the trace. *)
Lemma bmc_info_loop_total (sleep_count : nat) :
  forall (w : World), exists left_over w',
    OpenBMCIronicVirtMediaHW.bmc_info_loop tr sleep_count w = (Ret left_over, w ++ w').
Proof.
  induction sleep_count as [|n IH]; intros w;
    cbn [OpenBMCIronicVirtMediaHW.bmc_info_loop].
  - exists 0, []. rewrite app_nil_r. reflexivity.
  - unfold try_except, bind at 1. unfold _exec_ipmitool.
    destruct (on_exec tr (ncalls w) "bmc info") as [out|].
    + exists (S n), [bmc_info]. reflexivity.
    + unfold bind at 1. unfold sleep at 1.
      destruct (IH ((w ++ [ExecIpmitool "bmc info"]) ++ [Sleep 10])) as (k & w' & E).
      rewrite E. exists k, ([bmc_info; Sleep 10] ++ w').
      rewrite <- !app_assoc. reflexivity.
Qed.

Lemma issue_bmc_reset_answers (k : nat) (w : World) :
  on_exec tr (ncalls w) "bmc reset cold" <> Fails ->
  k < 10 ->
  (forall j, j < k -> on_exec tr (S (ncalls w) + j) "bmc info" = Fails) ->
  on_exec tr (S (ncalls w) + k) "bmc info" <> Fails ->
  OpenBMCIronicVirtMediaHW._issue_bmc_reset tr w =
  (Ret tt, w ++ [bmc_reset] ++ rounds k [bmc_info; Sleep 10] ++ [bmc_info]).
Proof.
  intros Hreset Hk Hfail Hok.
  unfold OpenBMCIronicVirtMediaHW._issue_bmc_reset.
  destruct (exec_answers "bmc reset cold" w Hreset) as [out E].
  unfold bind at 1. unfold try_except, bind at 1. rewrite E.
  unfold ret at 1. unfold bind at 1.
  rewrite (@bmc_info_loop_answers k 10 (w ++ [ExecIpmitool "bmc reset cold"])).
  - replace (10 - k =? 0)%nat with false by (symmetry; apply Nat.eqb_neq; lia).
    unfold ret. rewrite <- !app_assoc. reflexivity.
  - exact Hk.
  - intros j Hj. autorewrite with calls. apply Hfail. exact Hj.
  - autorewrite with calls. exact Hok.
Qed.

Lemma issue_bmc_reset_lost (w : World) :
  on_exec tr (ncalls w) "bmc reset cold" <> Fails ->
  (forall j, j < 10 -> on_exec tr (S (ncalls w) + j) "bmc info" = Fails) ->
  OpenBMCIronicVirtMediaHW._issue_bmc_reset tr w =
  (Raise (IPMIFailure "bmc reset"), w ++ [bmc_reset] ++ rounds 10 [bmc_info; Sleep 10]).
Proof.
  intros Hreset Hfail.
  unfold OpenBMCIronicVirtMediaHW._issue_bmc_reset.
  destruct (exec_answers "bmc reset cold" w Hreset) as [out E].
  unfold bind at 1. unfold try_except, bind at 1. rewrite E.
  unfold ret at 1. unfold bind at 1.
  rewrite (@bmc_info_loop_lost 10 (w ++ [ExecIpmitool "bmc reset cold"])).
  - cbn [Nat.eqb]. unfold raise. rewrite <- !app_assoc. reflexivity.
  - intros j Hj. autorewrite with calls. apply Hfail. exact Hj.
Qed.

(** A reset always starts with the reset command and ends either
    normally or in an [IPMIFailure]. *)
Lemma issue_bmc_reset_outcome (w : World) :
  exists r w',
    OpenBMCIronicVirtMediaHW._issue_bmc_reset tr w = (r, w ++ bmc_reset :: w')
    /\ (r = Ret tt \/ exists cmd, r = Raise (IPMIFailure cmd)).
Proof.
  unfold OpenBMCIronicVirtMediaHW._issue_bmc_reset.
  unfold bind at 1. unfold try_except, bind at 1. unfold _exec_ipmitool.
  destruct (on_exec tr (ncalls w) "bmc reset cold") as [out|].
  - unfold ret at 1. unfold bind at 1.
    destruct (bmc_info_loop_total 10 (w ++ [ExecIpmitool "bmc reset cold"]))
      as (k & w' & E).
    rewrite E. exists (if (k =? 0)%nat then Raise (IPMIFailure "bmc reset") else Ret tt), w'.
    rewrite <- app_assoc. split.
    + destruct (k =? 0)%nat; reflexivity.
    + destruct (k =? 0)%nat; [right; eauto | left; reflexivity].
  - exists (Raise (IPMIFailure "bmc reset cold")), []. split; [reflexivity|].
    right. eauto.
Qed.

End Reset.

(** ** Waiting for the disk to be attached *)

Section Mounting.

Variable tr : Transport.
Context {hw : Self.IronicVirtMediaHW}.

Lemma mounting_loop_times_out (sleep_count : nat) :
  always_mounting hw ->
  forall w, exists w', OpenBMCIronicVirtMediaHW.mounting_loop sleep_count w = (Ret 0, w').
Proof.
  intros Hm. induction sleep_count as [|n IH]; intros w;
    cbn [OpenBMCIronicVirtMediaHW.mounting_loop];
    destruct (Hm w) as [w1 E]; unfold bind at 1; rewrite E.
  - exists w1. reflexivity.
  - cbn [String.eqb Ascii.eqb Bool.eqb]. unfold bind at 1. unfold sleep at 1.
    apply IH.
Qed.

(** When the status stays ['mounting'], the call times out, resets the
    controller, and ends as the reset ends. *)
Lemma check_and_wait_times_out (image_filename : string) (w : World) :
  always_mounting hw ->
  exists w1 r w2,
    OpenBMCIronicVirtMediaHW._issue_bmc_reset tr w1 = (r, w2)
    /\ OpenBMCIronicVirtMediaHW.check_and_wait_for_cd_mounting tr image_filename w =
       (match r with Ret _ => Ret false | Raise e => Raise e end, w2).
Proof.
  intros Hm.
  unfold OpenBMCIronicVirtMediaHW.check_and_wait_for_cd_mounting.
  destruct (Hm w) as [w0 E0]. unfold bind at 1. rewrite E0.
  cbn [String.eqb Ascii.eqb Bool.eqb].
  unfold OpenBMCIronicVirtMediaHW._wait_for_cd_mounting.
  destruct (mounting_loop_times_out 10 Hm w0) as [w1 E1].
  unfold bind at 1. unfold bind at 1. rewrite E1. cbn [Nat.ltb Nat.leb].
  exists w1.
  destruct (OpenBMCIronicVirtMediaHW._issue_bmc_reset tr w1) as [r w2] eqn:E2.
  exists r, w2. split; [reflexivity|].
  unfold bind at 1. rewrite E2. destruct r; reflexivity.
Qed.

End Mounting.

(** The first status read of [check_and_wait_for_cd_mounting]: when it
    says ['nfserror'], the call raises [InstanceDeployFailure] right there,
    with nothing more done and no boolean returned.  The time-out is another
    outcome: when the status stays ['mounting'], the controller reset is
    issued and the call gives [False] or raises [IPMIFailure], never
    [InstanceDeployFailure].  The later reads, those of the wait loop, are
    not covered here. *)
Theorem nfserror_raises_deploy_failure
        (tr : Transport) (hw : Self.IronicVirtMediaHW) (image_filename : string) (w : World) :
  (forall w', Self.get_disk_attachment_status w = (Ret "nfserror", w') ->
     OpenBMCIronicVirtMediaHW.check_and_wait_for_cd_mounting tr image_filename w =
     (Raise (InstanceDeployFailure "NFS mount failed!"), w'))
  /\ (always_mounting hw ->
      exists r w1 w2,
        OpenBMCIronicVirtMediaHW.check_and_wait_for_cd_mounting tr image_filename w =
        (r, w1 ++ bmc_reset :: w2)
        /\ (r = Ret false \/ exists cmd, r = Raise (IPMIFailure cmd))).
Proof.
  split.
  - intros w' E.
    unfold OpenBMCIronicVirtMediaHW.check_and_wait_for_cd_mounting, bind.
    rewrite E. reflexivity.
  - intros Hm.
    destruct (check_and_wait_times_out tr image_filename w Hm) as (w1 & r & w2 & Ereset & E).
    destruct (issue_bmc_reset_outcome tr w1) as (r' & w' & E' & Hr').
    rewrite E' in Ereset. injection Ereset as <- <-.
    exists (match r' with Ret _ => Ret false | Raise e => Raise e end), w1, w'.
    split; [exact E|].
    destruct Hr' as [-> | [cmd ->]]; [left; reflexivity | right; eauto].
Qed.

Lemma nfserror_raises_deploy_failure_witness :
  OpenBMCIronicVirtMediaHW.check_and_wait_for_cd_mounting
    (self := status_stub "nfserror") responsive "boot.iso" [] =
  (Raise (InstanceDeployFailure "NFS mount failed!"), [])
  /\ exists r w1 w2,
       OpenBMCIronicVirtMediaHW.check_and_wait_for_cd_mounting
         (self := status_stub "mounting") responsive "boot.iso" [] =
       (r, w1 ++ bmc_reset :: w2)
       /\ (r = Ret false \/ exists cmd, r = Raise (IPMIFailure cmd)).
Proof.
  split.
  - apply (proj1 (nfserror_raises_deploy_failure
                    responsive (status_stub "nfserror") "boot.iso" [])).
    reflexivity.
  - apply (proj2 (nfserror_raises_deploy_failure
                    responsive (status_stub "mounting") "boot.iso" [])).
    intros w. exists w. reflexivity.
Defined.

(** ** Attach and the lost controller *)

(** When the first seven stages succeed, an attach ends as its status poll
    ends. *)
Lemma attach_reaches_status_poll {W} (st : FALCON.Step.methods W)
      (image_filename : string) (driver_info : list (string * string)) :
  passes FALCON.Step._enable_virtual_media ->
  passes (FALCON.Step._toggle_virtual_device true) ->
  passes FALCON.Step._clear_ris_configuration ->
  passes (FALCON.Step._set_setup_nfs driver_info) ->
  passes FALCON.Step._restart_ris_cd ->
  passes FALCON.Step._wait_for_mount_count ->
  passes (FALCON.Step._set_image_name image_filename) ->
  forall w, exists w',
    FALCON.attach_virtual_cd image_filename driver_info w =
    FALCON.Step.check_and_wait_for_cd_mounting image_filename w'.
Proof.
  intros H1 H2 H3 H4 H5 H6 H7 w.
  unfold FALCON.attach_virtual_cd.
  destruct (H1 w) as [w1 E1]. unfold bind at 1. rewrite E1. cbn [negb].
  destruct (H2 w1) as [w2 E2]. unfold bind at 1. rewrite E2. cbn [negb].
  destruct (H3 w2) as [w3 E3]. unfold bind at 1. rewrite E3. cbn [negb].
  destruct (H4 w3) as [w4 E4]. unfold bind at 1. rewrite E4. cbn [negb].
  destruct (H5 w4) as [w5 E5]. unfold bind at 1. rewrite E5. cbn [negb].
  destruct (H6 w5) as [w6 E6]. unfold bind at 1. rewrite E6. cbn [negb].
  destruct (H7 w6) as [w7 E7]. unfold bind at 1. rewrite E7. cbn [negb].
  exists w7. reflexivity.
Qed.

(** C9: once the cold reset has been issued, [_issue_bmc_reset] polls
    [bmc info], sleeping ten seconds after each failed poll.  When one of
    the first ten polls is answered the call returns normally, right after
    that poll.  When none of the ten is answered the call raises
    [IPMIFailure]; and an attach whose status stays ['mounting'] on a
    controller that is lost in this way raises that same error. *)
Theorem issue_bmc_reset_polls_liveness (tr : Transport) (w : World) :
  on_exec tr (ncalls w) "bmc reset cold" <> Fails ->
  (forall k, k < 10 ->
     (forall j, j < k -> on_exec tr (S (ncalls w) + j) "bmc info" = Fails) ->
     on_exec tr (S (ncalls w) + k) "bmc info" <> Fails ->
     OpenBMCIronicVirtMediaHW._issue_bmc_reset tr w =
     (Ret tt, w ++ [bmc_reset] ++ rounds k [bmc_info; Sleep 10] ++ [bmc_info]))
  /\ ((forall j, j < 10 -> on_exec tr (S (ncalls w) + j) "bmc info" = Fails) ->
      OpenBMCIronicVirtMediaHW._issue_bmc_reset tr w =
      (Raise (IPMIFailure "bmc reset"), w ++ [bmc_reset] ++ rounds 10 [bmc_info; Sleep 10]))
  /\ (forall (hw : Self.IronicVirtMediaHW) (stub : M World bool)
             (image_filename : string) (driver_info : list (string * string)) (w0 : World),
        passes stub ->
        always_mounting hw ->
        (forall n, on_exec tr n "bmc reset cold" <> Fails) ->
        (forall n, on_exec tr n "bmc info" = Fails) ->
        exists w',
          FALCON.attach_virtual_cd (self := with_status_poll tr hw stub)
                                   image_filename driver_info w0 =
          (Raise (IPMIFailure "bmc reset"), w')).
Proof.
  intros Hreset. split; [|split].
  - intros k Hk Hfail Hok. apply issue_bmc_reset_answers; assumption.
  - intros Hfail. apply issue_bmc_reset_lost; assumption.
  - intros hw stub image_filename driver_info w0 Hstub Hm Hr Hi.
    destruct (@attach_reaches_status_poll World (with_status_poll tr hw stub)
                image_filename driver_info Hstub Hstub Hstub Hstub Hstub Hstub Hstub w0)
      as [w1 E].
    rewrite E. cbn [with_status_poll FALCON.Step.check_and_wait_for_cd_mounting].
    destruct (@check_and_wait_times_out tr hw image_filename w1 Hm)
      as (w2 & r & w3 & Ereset & Echeck).
    rewrite issue_bmc_reset_lost in Ereset by (intros; auto).
    injection Ereset as <- <-.
    rewrite Echeck. eauto.
Qed.

Lemma issue_bmc_reset_polls_liveness_witness :
  OpenBMCIronicVirtMediaHW._issue_bmc_reset back_at_third_poll [] =
  (Ret tt, [bmc_reset; bmc_info; Sleep 10; bmc_info; Sleep 10; bmc_info])
  /\ OpenBMCIronicVirtMediaHW._issue_bmc_reset lost_after_reset [] =
     (Raise (IPMIFailure "bmc reset"), [bmc_reset] ++ rounds 10 [bmc_info; Sleep 10])
  /\ exists w',
       FALCON.attach_virtual_cd
         (self := with_status_poll lost_after_reset (status_stub "mounting") (ret true))
         "boot.iso" [] [] =
       (Raise (IPMIFailure "bmc reset"), w').
Proof.
  assert (Hback : on_exec back_at_third_poll (ncalls []) "bmc reset cold" <> Fails)
    by (simpl; discriminate).
  assert (Hlost : on_exec lost_after_reset (ncalls []) "bmc reset cold" <> Fails)
    by (simpl; discriminate).
  split; [|split].
  - apply (proj1 (issue_bmc_reset_polls_liveness back_at_third_poll [] Hback) 2).
    + lia.
    + intros j Hj. destruct j as [|[|j]]; try reflexivity. lia.
    + simpl. discriminate.
  - apply (proj1 (proj2 (issue_bmc_reset_polls_liveness lost_after_reset [] Hlost))).
    intros j Hj. reflexivity.
  - apply (proj2 (proj2 (issue_bmc_reset_polls_liveness lost_after_reset [] Hlost))).
    + intros w. exists w. reflexivity.
    + intros w. exists w. reflexivity.
    + intros n. simpl. discriminate.
    + intros n. reflexivity.
Defined.

(** A matching read-back ends the mount-bit poll with [True]. *)
Example toggle_virtual_device_confirmed :
  FALCON._toggle_virtual_device set_at_third_command true [] =
  (Ret true,
   [SendRaw "0x32 0xcb 0x00 0x01";
    SendRaw "0x32 0xca 0x00"; Sleep 2;
    SendRaw "0x32 0xca 0x00"]).
Proof. reflexivity. Qed.

(** ** An attach on FALCON *)

(** The first stage of a FALCON attach is [_enable_virtual_media], whose
    status check cannot succeed: the attach ends there. *)
Lemma falcon_attach_ends_at_first_stage
      (tr : Transport) (remote_share image_filename : string)
      (driver_info : list (string * string)) (w : World) :
  FALCON.attach_virtual_cd (self := FALCON.self tr remote_share) image_filename driver_info w =
  (Ret false,
   w ++ [SendRaw (FALCON.RAW_SET_VMEDIA_STATUS "0x01"); SendRaw FALCON.RAW_RESTART_VMEDIA]
     ++ rounds 60 [Sleep 5]).
Proof.
  unfold FALCON.attach_virtual_cd.
  cbn [FALCON.self FALCON.Step._enable_virtual_media].
  unfold bind at 1. rewrite enable_virtual_media_run. reflexivity.
Qed.

(** * Further properties *)

(** ** Reading and confirming a slot count *)

(** What one read of a device count does. *)
Lemma get_device_count_run (tr : Transport) (devicetype : string) (w : World) :
  FALCON._get_virtual_media_device_count tr devicetype w =
  match readable_devparam devicetype with
  | None => (Ret (Some 0%Z), w)
  | Some p =>
      (Ret (device_count_of (on_raw tr (ncalls w) (FALCON.RAW_GET_VMEDIA_DEVICE_COUNT p))),
       w ++ [SendRaw (FALCON.RAW_GET_VMEDIA_DEVICE_COUNT p)])
  end.
Proof.
  unfold FALCON._get_virtual_media_device_count, readable_devparam.
  destruct (if devicetype =? "CD" then Some FALCON.VMDEIA_DEVICE_TYPE_CD
            else if devicetype =? "FD" then Some FALCON.VMDEIA_DEVICE_TYPE_FD
            else if devicetype =? "HD" then Some FALCON.VMDEIA_DEVICE_TYPE_HD
            else None) as [p|].
  - unfold try_except, bind, send_raw, device_count_of, int_.
    destruct (on_raw tr (ncalls w) (FALCON.RAW_GET_VMEDIA_DEVICE_COUNT p)) as [out|].
    + destruct (Py.int_of_string 10 (Py.strip out)); reflexivity.
    + reflexivity.
  - reflexivity.
Qed.

(** [_get_virtual_media_device_count] never raises.  For a type other
    than CD, FD and HD it gives 0 and sends nothing; otherwise it sends the
    read command and gives the count the answer carries, or [None] when the
    transport fails or the answer is no decimal integer. *)
Theorem get_device_count_never_raises (tr : Transport) (devicetype : string) (w : World) :
  FALCON._get_virtual_media_device_count tr devicetype w =
  match readable_devparam devicetype with
  | None => (Ret (Some 0%Z), w)
  | Some p =>
      (Ret (device_count_of (on_raw tr (ncalls w) (FALCON.RAW_GET_VMEDIA_DEVICE_COUNT p))),
       w ++ [SendRaw (FALCON.RAW_GET_VMEDIA_DEVICE_COUNT p)])
  end.
Proof. exact (get_device_count_run tr devicetype w). Qed.

Lemma readable_settable (devicetype : string) :
  devicetype = "CD" \/ devicetype = "HD" ->
  readable_devparam devicetype = Some (devparam devicetype).
Proof. intros [-> | ->]; reflexivity. Qed.

Lemma settable_devparam (devicetype : string) :
  devicetype = "CD" \/ devicetype = "HD" ->
  (if devicetype =? "CD" then Some FALCON.VMDEIA_DEVICE_TYPE_CD
   else if devicetype =? "HD" then Some FALCON.VMDEIA_DEVICE_TYPE_HD else None)
  = Some (devparam devicetype).
Proof. intros [-> | ->]; reflexivity. Qed.

Lemma get_device_count_reads
      (tr : Transport) (devicetype : string) (w : World) (out : string) (m : Z) :
  devicetype = "CD" \/ devicetype = "HD" ->
  on_raw tr (ncalls w) (FALCON.RAW_GET_VMEDIA_DEVICE_COUNT (devparam devicetype)) = Out out ->
  Py.int_of_string 10 (Py.strip out) = Some m ->
  FALCON._get_virtual_media_device_count tr devicetype w =
  (Ret (Some m), w ++ [SendRaw (FALCON.RAW_GET_VMEDIA_DEVICE_COUNT (devparam devicetype))]).
Proof.
  intros Htype Hout Hint.
  rewrite get_device_count_run, (readable_settable devicetype Htype), Hout.
  unfold device_count_of. rewrite Hint. reflexivity.
Qed.

Section Confirming.

Variable tr : Transport.
Variables (devicetype : string) (devicecount : Z).
Hypothesis settable : devicetype = "CD" \/ devicetype = "HD".

Let get : event := SendRaw (FALCON.RAW_GET_VMEDIA_DEVICE_COUNT (devparam devicetype)).

(** From a count that differs, the loop sleeps and reads until the count
    is the one asked for. *)
Lemma device_count_loop_confirms (k : nat) :
  forall (tries : nat) (m : Z) (w : World),
    k < tries ->
    m <> devicecount ->
    (forall j, j < k -> reads_other_count tr devicetype devicecount (ncalls w + j)) ->
    reads_count tr devicetype devicecount (ncalls w + k) ->
    FALCON.device_count_loop tr devicetype devicecount (Some m) tries w =
    (Ret tt, w ++ rounds (S k) [Sleep 5; get]).
Proof.
  induction k as [|k IH]; intros tries m w Hlt Hm Hother Hcount;
    destruct tries as [|n]; try lia;
    cbn [FALCON.device_count_loop FALCON.differs rounds];
    (pose proof Hm as Hneq; apply Z.eqb_neq in Hneq; rewrite Hneq);
    cbn [negb format_d];
    unfold bind at 1; unfold ret at 1;
    unfold bind at 1; unfold sleep at 1;
    unfold bind at 1.
  - destruct Hcount as (out & Hout & Hint).
    rewrite Nat.add_0_r, <- (ncalls_sleep w 5) in Hout.
    rewrite (get_device_count_reads tr devicetype _ _ _ settable Hout Hint).
    destruct n as [|n]; cbn [FALCON.device_count_loop FALCON.differs];
      rewrite ?Z.eqb_refl; cbn [negb]; unfold ret;
      rewrite <- !app_assoc; reflexivity.
  - destruct (Hother 0) as (out & m' & Hout & Hint & Hm'); [lia|].
    rewrite Nat.add_0_r, <- (ncalls_sleep w 5) in Hout.
    rewrite (get_device_count_reads tr devicetype _ _ _ settable Hout Hint).
    rewrite (IH n m'); [| lia | exact Hm' | |].
    + subst get. cbn [rounds]. rewrite <- !app_assoc. reflexivity.
    + intros j Hj. autorewrite with calls.
      replace (S (ncalls w) + j) with (ncalls w + S j) by lia. apply Hother. lia.
    + autorewrite with calls.
      replace (S (ncalls w) + k) with (ncalls w + S k) by lia. exact Hcount.
Qed.

End Confirming.

(** When the set command is answered and the read-back number [k] (counted
    from 0, [k <= 40]) is the first to carry the requested count,
    [_set_virtual_media_device_count] gives [True] right after that
    read-back, having slept five seconds [k] times. *)
Theorem set_device_count_confirms
        (tr : Transport) (devicetype : string) (devicecount : Z) (k : nat) (w : World) :
  devicetype = "CD" \/ devicetype = "HD" ->
  (0 <= devicecount <= 4)%Z ->
  k <= 40 ->
  on_raw tr (ncalls w)
         (FALCON.RAW_SET_VMEDIA_DEVICE_COUNT (devparam devicetype) (Py.hex devicecount)) <> Fails ->
  (forall j, j < k -> reads_other_count tr devicetype devicecount (S (ncalls w) + j)) ->
  reads_count tr devicetype devicecount (S (ncalls w) + k) ->
  let get := SendRaw (FALCON.RAW_GET_VMEDIA_DEVICE_COUNT (devparam devicetype)) in
  FALCON._set_virtual_media_device_count tr devicetype devicecount w =
  (Ret true,
   w ++ [SendRaw (FALCON.RAW_SET_VMEDIA_DEVICE_COUNT (devparam devicetype) (Py.hex devicecount));
         get]
     ++ rounds k [Sleep 5; get]).
Proof.
  intros Htype Hrange Hk Hset Hother Hcount get.
  unfold FALCON._set_virtual_media_device_count.
  replace ((0 <=? devicecount)%Z && (devicecount <=? 4)%Z) with true
    by (symmetry; apply andb_true_iff; split; apply Z.leb_le; lia).
  cbv beta iota delta [negb].
  rewrite (settable_devparam devicetype Htype).
  unfold try_except. unfold bind at 1. unfold send_raw at 1.
  destruct (on_raw tr (ncalls w) _) as [out0|]; [|congruence].
  unfold bind at 1.
  set (w1 := w ++ [SendRaw _]).
  assert (Hw1 : ncalls w1 = S (ncalls w)) by (subst w1; apply ncalls_send).
  destruct k as [|k].
  - destruct Hcount as (out & Hout & Hint).
    rewrite Nat.add_0_r, <- Hw1 in Hout.
    rewrite (get_device_count_reads tr devicetype _ _ _ Htype Hout Hint).
    unfold bind at 1. cbn [FALCON.device_count_loop FALCON.differs].
    rewrite Z.eqb_refl. cbn [negb]. unfold ret. subst w1 get. cbn [rounds].
    rewrite <- !app_assoc. reflexivity.
  - destruct (Hother 0) as (out & m & Hout & Hint & Hm); [lia|].
    rewrite Nat.add_0_r, <- Hw1 in Hout.
    rewrite (get_device_count_reads tr devicetype _ _ _ Htype Hout Hint).
    unfold bind at 1.
    rewrite (@device_count_loop_confirms tr devicetype devicecount Htype k 40 m);
      [| lia | exact Hm | |].
    + unfold ret. subst w1 get. rewrite <- !app_assoc. reflexivity.
    + intros j Hj. autorewrite with calls. rewrite Hw1.
      replace (S (S (ncalls w)) + j) with (S (ncalls w) + S j) by lia. apply Hother. lia.
    + autorewrite with calls. rewrite Hw1.
      replace (S (S (ncalls w)) + k) with (S (ncalls w) + S k) by lia. exact Hcount.
Qed.

Lemma set_device_count_confirms_witness :
  FALCON._set_virtual_media_device_count set_at_third_command "HD" 1 [] =
  (Ret true,
   [SendRaw "0x32 0xcb 0x06 0x1"; SendRaw "0x32 0xca 0x06";
    Sleep 5; SendRaw "0x32 0xca 0x06"]).
Proof.
  apply (set_device_count_confirms set_at_third_command "HD" 1 1 []).
  - right. reflexivity.
  - lia.
  - lia.
  - simpl. discriminate.
  - intros j Hj. exists "00", 0%Z. destruct j as [|j]; [|lia].
    repeat split. lia.
  - exists " 01". split; reflexivity.
Defined.

(** When the transport fails the set command, a valid request ends at once
    with [False]: no read-back follows. *)
Theorem set_device_count_set_failure
        (tr : Transport) (devicetype : string) (devicecount : Z) (w : World) :
  devicetype = "CD" \/ devicetype = "HD" ->
  (0 <= devicecount <= 4)%Z ->
  on_raw tr (ncalls w)
         (FALCON.RAW_SET_VMEDIA_DEVICE_COUNT (devparam devicetype) (Py.hex devicecount)) = Fails ->
  FALCON._set_virtual_media_device_count tr devicetype devicecount w =
  (Ret false,
   w ++ [SendRaw (FALCON.RAW_SET_VMEDIA_DEVICE_COUNT (devparam devicetype) (Py.hex devicecount))]).
Proof.
  intros Htype Hrange Hset.
  unfold FALCON._set_virtual_media_device_count.
  replace ((0 <=? devicecount)%Z && (devicecount <=? 4)%Z) with true
    by (symmetry; apply andb_true_iff; split; apply Z.leb_le; lia).
  cbv beta iota delta [negb].
  rewrite (settable_devparam devicetype Htype).
  unfold try_except, bind, send_raw. rewrite Hset. reflexivity.
Qed.

Lemma set_device_count_set_failure_witness :
  FALCON._set_virtual_media_device_count silent "CD" 4 [] =
  (Ret false, [SendRaw "0x32 0xcb 0x04 0x4"]).
Proof.
  apply (set_device_count_set_failure silent "CD" 4 []).
  - left. reflexivity.
  - lia.
  - reflexivity.
Defined.

(** ** Polling the mount bit *)

Lemma mount_status_loop_confirms (tr : Transport) (status : string) (k : nat) :
  forall (tries : nat) (w : World),
    k < tries ->
    (forall j, j < k -> reads_other_status tr status (ncalls w + j)) ->
    reads_status tr status (ncalls w + k) ->
    FALCON.mount_status_loop tr status tries w =
    (Ret true,
     w ++ rounds k [SendRaw FALCON.RAW_GET_VMEDIA_MOUNT_STATUS; Sleep 2]
       ++ [SendRaw FALCON.RAW_GET_VMEDIA_MOUNT_STATUS]).
Proof.
  induction k as [|k IH]; intros tries w Hlt Hother Hmatch;
    destruct tries as [|n]; try lia; cbn [FALCON.mount_status_loop rounds].
  - destruct Hmatch as (out & Hout & Heq). rewrite Nat.add_0_r in Hout.
    unfold bind at 1. unfold send_raw at 1. rewrite Hout.
    apply String.eqb_eq in Heq. rewrite Heq. reflexivity.
  - destruct (Hother 0) as (out & Hout & Hne); [lia|].
    rewrite Nat.add_0_r in Hout.
    unfold bind at 1. unfold send_raw at 1. rewrite Hout.
    apply String.eqb_neq in Hne. rewrite Hne.
    unfold bind at 1. unfold sleep at 1.
    rewrite IH.
    + rewrite <- !app_assoc. reflexivity.
    + lia.
    + intros j Hj. autorewrite with calls.
      replace (S (ncalls w) + j) with (ncalls w + S j) by lia. apply Hother. lia.
    + autorewrite with calls.
      replace (S (ncalls w) + k) with (ncalls w + S k) by lia. exact Hmatch.
Qed.

Lemma mount_status_loop_runs_out (tr : Transport) (status : string) (tries : nat) :
  forall (w : World),
    (forall j, j < tries -> reads_other_status tr status (ncalls w + j)) ->
    FALCON.mount_status_loop tr status tries w =
    (Ret false, w ++ rounds tries [SendRaw FALCON.RAW_GET_VMEDIA_MOUNT_STATUS; Sleep 2]).
Proof.
  induction tries as [|n IH]; intros w Hother; cbn [FALCON.mount_status_loop rounds].
  - rewrite app_nil_r. reflexivity.
  - destruct (Hother 0) as (out & Hout & Hne); [lia|].
    rewrite Nat.add_0_r in Hout.
    unfold bind at 1. unfold send_raw at 1. rewrite Hout.
    apply String.eqb_neq in Hne. rewrite Hne.
    unfold bind at 1. unfold sleep at 1.
    rewrite IH.
    + rewrite <- !app_assoc. reflexivity.
    + intros j Hj. autorewrite with calls.
      replace (S (ncalls w) + j) with (ncalls w + S j) by lia. apply Hother. lia.
Qed.

(** When the set command is answered and the read-back number [k] (from 0,
    [k < 60]) is the first to show the requested status,
    [_toggle_virtual_device] gives [True] right after it, having slept two
    seconds [k] times. *)
Theorem toggle_virtual_device_confirms
        (tr : Transport) (enabled : bool) (k : nat) (w : World) :
  let status := if enabled then "01" else "00" in
  let set := FALCON.RAW_SET_VMEDIA_MOUNT_STATUS ("0x" ++ status)%string in
  let get := SendRaw FALCON.RAW_GET_VMEDIA_MOUNT_STATUS in
  k < 60 ->
  on_raw tr (ncalls w) set <> Fails ->
  (forall j, j < k -> reads_other_status tr status (S (ncalls w) + j)) ->
  reads_status tr status (S (ncalls w) + k) ->
  FALCON._toggle_virtual_device tr enabled w =
  (Ret true, w ++ [SendRaw set] ++ rounds k [get; Sleep 2] ++ [get]).
Proof.
  intros status set get Hk Hset Hother Hmatch.
  unfold FALCON._toggle_virtual_device, try_except.
  fold status. fold set.
  unfold bind at 1. unfold send_raw at 1.
  destruct (on_raw tr (ncalls w) set) as [out|]; [|congruence].
  rewrite (@mount_status_loop_confirms tr status k 60 (w ++ [SendRaw set])).
  - subst get. rewrite <- !app_assoc. reflexivity.
  - exact Hk.
  - intros j Hj. autorewrite with calls. apply Hother. exact Hj.
  - autorewrite with calls. exact Hmatch.
Qed.

Lemma toggle_virtual_device_confirms_witness :
  FALCON._toggle_virtual_device set_at_third_command true [] =
  (Ret true,
   [SendRaw "0x32 0xcb 0x00 0x01";
    SendRaw "0x32 0xca 0x00"; Sleep 2;
    SendRaw "0x32 0xca 0x00"]).
Proof.
  apply (toggle_virtual_device_confirms set_at_third_command true 1 []).
  - lia.
  - simpl. discriminate.
  - intros j Hj. exists "00". destruct j as [|j]; [|lia].
    split; [reflexivity | discriminate].
  - exists " 01". split; reflexivity.
Defined.

(** When the set command is answered and none of sixty read-backs shows
    the requested status, [_toggle_virtual_device] gives [False] after
    exactly sixty read-backs, each followed by a two-second sleep. *)
Theorem toggle_virtual_device_runs_out (tr : Transport) (enabled : bool) (w : World) :
  let status := if enabled then "01" else "00" in
  let set := FALCON.RAW_SET_VMEDIA_MOUNT_STATUS ("0x" ++ status)%string in
  on_raw tr (ncalls w) set <> Fails ->
  (forall j, j < 60 -> reads_other_status tr status (S (ncalls w) + j)) ->
  FALCON._toggle_virtual_device tr enabled w =
  (Ret false,
   w ++ [SendRaw set] ++ rounds 60 [SendRaw FALCON.RAW_GET_VMEDIA_MOUNT_STATUS; Sleep 2]).
Proof.
  intros status set Hset Hother.
  unfold FALCON._toggle_virtual_device, try_except.
  fold status. fold set.
  unfold bind at 1. unfold send_raw at 1.
  destruct (on_raw tr (ncalls w) set) as [out|]; [|congruence].
  rewrite (@mount_status_loop_runs_out tr status 60 (w ++ [SendRaw set])).
  - rewrite <- !app_assoc. reflexivity.
  - intros j Hj. autorewrite with calls. apply Hother. exact Hj.
Qed.

Lemma toggle_virtual_device_runs_out_witness :
  FALCON._toggle_virtual_device never_set true [] =
  (Ret false,
   [SendRaw "0x32 0xcb 0x00 0x01"] ++ rounds 60 [SendRaw "0x32 0xca 0x00"; Sleep 2]).
Proof.
  apply (toggle_virtual_device_runs_out never_set true []).
  - simpl. discriminate.
  - intros j Hj. exists "00". split; [reflexivity | discriminate].
Defined.

(** When the transport fails the set command, [_toggle_virtual_device]
    gives [False] at once: the mount bit is never read back. *)
Theorem toggle_virtual_device_set_failure (tr : Transport) (enabled : bool) (w : World) :
  let set := FALCON.RAW_SET_VMEDIA_MOUNT_STATUS
               ("0x" ++ (if enabled then "01" else "00"))%string in
  on_raw tr (ncalls w) set = Fails ->
  FALCON._toggle_virtual_device tr enabled w = (Ret false, w ++ [SendRaw set]).
Proof.
  intros set Hset.
  unfold FALCON._toggle_virtual_device, try_except, bind, send_raw.
  fold set. rewrite Hset. reflexivity.
Qed.

Lemma toggle_virtual_device_set_failure_witness :
  FALCON._toggle_virtual_device silent false [] =
  (Ret false, [SendRaw "0x32 0xcb 0x00 0x00"]).
Proof.
  apply (toggle_virtual_device_set_failure silent false []). reflexivity.
Defined.

(** ** Waiting for the image to appear *)

(** What one read of the image count does. *)
Lemma get_mounted_image_count_run (tr : Transport) (w : World) :
  FALCON._get_mounted_image_count tr w =
  (Ret (match image_count_at tr (ncalls w) with
        | Some n => n
        | None => 0%Z
        end),
   w ++ [SendRaw FALCON.RAW_GET_MOUNTED_IMG_COUNT]).
Proof.
  unfold FALCON._get_mounted_image_count, try_except, bind, send_raw,
    image_count_at, image_count_of.
  destruct (on_raw tr (ncalls w) FALCON.RAW_GET_MOUNTED_IMG_COUNT) as [out|].
  - unfold int_.
    destruct (Py.int_of_string 16 (Py.slice 3 5 (Py.strip out))); reflexivity.
  - reflexivity.
Qed.

Lemma no_image_zero (tr : Transport) (n : nat) :
  no_image tr n ->
  (0 <? match image_count_at tr n with Some c => c | None => 0 end)%Z = false.
Proof.
  intros H. unfold no_image in H.
  destruct (image_count_at tr n) as [c|]; [|reflexivity].
  apply Z.ltb_ge. apply H. reflexivity.
Qed.

Lemma mount_count_loop_sees_image (tr : Transport) (k : nat) :
  forall (tries : nat) (w : World),
    k < tries ->
    (forall j, j < k -> no_image tr (ncalls w + j)) ->
    image_present tr (ncalls w + k) ->
    FALCON.mount_count_loop tr tries w =
    (Ret true,
     w ++ rounds k [SendRaw FALCON.RAW_GET_MOUNTED_IMG_COUNT; Sleep 10]
       ++ [SendRaw FALCON.RAW_GET_MOUNTED_IMG_COUNT]).
Proof.
  induction k as [|k IH]; intros tries w Hlt Hnone Himage;
    destruct tries as [|n]; try lia; cbn [FALCON.mount_count_loop rounds];
    unfold bind at 1; rewrite get_mounted_image_count_run.
  - destruct Himage as (c & Hc & Hpos). rewrite Nat.add_0_r in Hc. rewrite Hc.
    apply Z.ltb_lt in Hpos. rewrite Hpos. reflexivity.
  - rewrite no_image_zero
      by (rewrite <- (Nat.add_0_r (ncalls w)); apply Hnone; lia).
    unfold bind at 1. unfold sleep at 1.
    rewrite IH.
    + rewrite <- !app_assoc. reflexivity.
    + lia.
    + intros j Hj. autorewrite with calls.
      replace (S (ncalls w) + j) with (ncalls w + S j) by lia. apply Hnone. lia.
    + autorewrite with calls.
      replace (S (ncalls w) + k) with (ncalls w + S k) by lia. exact Himage.
Qed.

Lemma mount_count_loop_runs_out (tr : Transport) (tries : nat) :
  forall (w : World),
    (forall j, j < tries -> no_image tr (ncalls w + j)) ->
    FALCON.mount_count_loop tr tries w =
    (Ret false, w ++ rounds tries [SendRaw FALCON.RAW_GET_MOUNTED_IMG_COUNT; Sleep 10]).
Proof.
  induction tries as [|n IH]; intros w Hnone; cbn [FALCON.mount_count_loop rounds].
  - rewrite app_nil_r. reflexivity.
  - unfold bind at 1. rewrite get_mounted_image_count_run.
    rewrite no_image_zero
      by (rewrite <- (Nat.add_0_r (ncalls w)); apply Hnone; lia).
    unfold bind at 1. unfold sleep at 1.
    rewrite IH.
    + rewrite <- !app_assoc. reflexivity.
    + intros j Hj. autorewrite with calls.
      replace (S (ncalls w) + j) with (ncalls w + S j) by lia. apply Hnone. lia.
Qed.

(** When poll number [k] (from 0, [k < 60]) is the first to show a positive
    image count, [_wait_for_mount_count] gives [True] right after it, having
    slept ten seconds [k] times; polls that fail in the transport or do not
    parse count as showing no image. *)
Theorem wait_for_mount_count_sees_image (tr : Transport) (k : nat) (w : World) :
  k < 60 ->
  (forall j, j < k -> no_image tr (ncalls w + j)) ->
  image_present tr (ncalls w + k) ->
  FALCON._wait_for_mount_count tr w =
  (Ret true,
   w ++ rounds k [SendRaw FALCON.RAW_GET_MOUNTED_IMG_COUNT; Sleep 10]
     ++ [SendRaw FALCON.RAW_GET_MOUNTED_IMG_COUNT]).
Proof.
  intros Hk Hnone Himage. unfold FALCON._wait_for_mount_count.
  apply mount_count_loop_sees_image; assumption.
Qed.

Lemma wait_for_mount_count_sees_image_witness :
  FALCON._wait_for_mount_count image_at_third_poll [] =
  (Ret true,
   [SendRaw "0x32 0xd8 0x00 0x01"; Sleep 10;
    SendRaw "0x32 0xd8 0x00 0x01"; Sleep 10;
    SendRaw "0x32 0xd8 0x00 0x01"]).
Proof.
  apply (wait_for_mount_count_sees_image image_at_third_poll 2 []).
  - lia.
  - intros j Hj c Hc. destruct j as [|[|j]]; try lia;
      vm_compute in Hc; injection Hc as <-; lia.
  - exists 1%Z. split; [reflexivity | lia].
Defined.

(** When none of sixty polls shows a positive image count, be it for a
    zero count, a failing transport or an answer that does not parse,
    [_wait_for_mount_count] gives [False] after exactly sixty polls, each
    followed by a ten-second sleep; it never raises. *)
Theorem wait_for_mount_count_runs_out (tr : Transport) (w : World) :
  (forall j, j < 60 -> no_image tr (ncalls w + j)) ->
  FALCON._wait_for_mount_count tr w =
  (Ret false, w ++ rounds 60 [SendRaw FALCON.RAW_GET_MOUNTED_IMG_COUNT; Sleep 10]).
Proof.
  intros Hnone. unfold FALCON._wait_for_mount_count.
  apply mount_count_loop_runs_out. exact Hnone.
Qed.

Lemma wait_for_mount_count_runs_out_witness :
  FALCON._wait_for_mount_count silent [] =
  (Ret false, rounds 60 [SendRaw "0x32 0xd8 0x00 0x01"; Sleep 10]).
Proof.
  apply (wait_for_mount_count_runs_out silent []).
  intros j Hj c Hc. discriminate Hc.
Defined.

(** ** Configuring the network share *)

Lemma set_nfs_root_path_never_raises
      (tr : Transport) (remote_share : string) (driver_info : list (string * string))
      (w : World) :
  exists r w',
    FALCON._set_nfs_root_path tr remote_share driver_info w = (Ret r, w')
    /\ (r = None \/ r = Some false).
Proof.
  unfold FALCON._set_nfs_root_path, try_except.
  match goal with
  | |- context [match ?body w with _ => _ end] => destruct (body w) as [[a|e] w'] eqn:E
  end.
  - exists a, w'. split; [reflexivity|].
    revert E. unfold bind, send_raw, sleep, ret.
    repeat match goal with
           | |- context [on_raw tr ?n ?c] => destruct (on_raw tr n c)
           end; intros E; inversion E; auto.
  - exists (Some false), w'. split; [reflexivity | right; reflexivity].
Qed.

(** Without the key ['provisioning_server'] in [driver_info],
    [_set_setup_nfs] gives [False] on every transport, and the share-type
    command is the only one it sends: neither address nor path is written. *)
Theorem setup_nfs_without_server_address
        (tr : Transport) (remote_share : string) (driver_info : list (string * string))
        (w : World) :
  dict_get driver_info "provisioning_server" = None ->
  FALCON._set_setup_nfs tr remote_share driver_info w =
  (Ret false, w ++ [SendRaw FALCON.RAW_SET_RIS_NFS]).
Proof.
  intros Hkey.
  unfold FALCON._set_setup_nfs, FALCON._set_share_type, FALCON._set_nfs_server_ip.
  unfold try_except, bind, send_raw, getitem. rewrite Hkey.
  destruct (on_raw tr (ncalls w) FALCON.RAW_SET_RIS_NFS); reflexivity.
Qed.

Lemma setup_nfs_without_server_address_witness :
  FALCON._set_setup_nfs responsive "/r/" [("virtmedia_deploy_iso", "deploy.iso")] [] =
  (Ret false, [SendRaw "0x32 0x9f 0x01 0x05 0x00 0x6e 0x66 0x73"]).
Proof.
  apply (setup_nfs_without_server_address responsive "/r/"
           [("virtmedia_deploy_iso", "deploy.iso")] []).
  reflexivity.
Defined.

(** When the share type is set and the transport fails the server-address
    command, [_set_setup_nfs] gives [False] and stops there: the path step
    is never entered. *)
Theorem setup_nfs_server_address_failure
        (tr : Transport) (remote_share ip : string) (driver_info : list (string * string))
        (w : World) :
  dict_get driver_info "provisioning_server" = Some ip ->
  on_raw tr (ncalls w) FALCON.RAW_SET_RIS_NFS <> Fails ->
  on_raw tr (S (ncalls w))
         (FALCON.RAW_SET_RIS_NFS_IP (OpenBMCIronicVirtMediaHW.hex_convert ip)) = Fails ->
  FALCON._set_setup_nfs tr remote_share driver_info w =
  (Ret false,
   w ++ [SendRaw FALCON.RAW_SET_RIS_NFS;
         SendRaw (FALCON.RAW_SET_RIS_NFS_IP (OpenBMCIronicVirtMediaHW.hex_convert ip))]).
Proof.
  intros Hkey Hshare Hip.
  unfold FALCON._set_setup_nfs, FALCON._set_share_type, FALCON._set_nfs_server_ip.
  unfold try_except, bind, send_raw, getitem. rewrite Hkey.
  destruct (on_raw tr (ncalls w) FALCON.RAW_SET_RIS_NFS); [|congruence].
  unfold ret. rewrite ncalls_send, Hip, <- app_assoc. reflexivity.
Qed.

Lemma setup_nfs_server_address_failure_witness :
  FALCON._set_setup_nfs refuses_server_ip "/r/" [("provisioning_server", "10.0.0.1")] [] =
  (Ret false,
   [SendRaw "0x32 0x9f 0x01 0x05 0x00 0x6e 0x66 0x73";
    SendRaw "0x32 0x9f 0x01 0x02 0x00 0x31 0x30 0x2e 0x30 0x2e 0x30 0x2e 0x31"]).
Proof.
  apply (setup_nfs_server_address_failure refuses_server_ip "/r/" "10.0.0.1"
           [("provisioning_server", "10.0.0.1")] []).
  - reflexivity.
  - simpl. discriminate.
  - reflexivity.
Defined.

(** When share type and server address are set, [_set_setup_nfs] gives
    [True] whatever the path step does: the path step reports a failed
    command by returning [False], which [_set_setup_nfs] does not look at. *)
Theorem setup_nfs_ignores_path_failure
        (tr : Transport) (remote_share ip : string) (driver_info : list (string * string))
        (w : World) :
  dict_get driver_info "provisioning_server" = Some ip ->
  on_raw tr (ncalls w) FALCON.RAW_SET_RIS_NFS <> Fails ->
  on_raw tr (S (ncalls w))
         (FALCON.RAW_SET_RIS_NFS_IP (OpenBMCIronicVirtMediaHW.hex_convert ip)) <> Fails ->
  exists r w',
    FALCON._set_nfs_root_path tr remote_share driver_info
      (w ++ [SendRaw FALCON.RAW_SET_RIS_NFS;
             SendRaw (FALCON.RAW_SET_RIS_NFS_IP (OpenBMCIronicVirtMediaHW.hex_convert ip))])
    = (Ret r, w')
    /\ (r = None \/ r = Some false)
    /\ FALCON._set_setup_nfs tr remote_share driver_info w = (Ret true, w').
Proof.
  intros Hkey Hshare Hip.
  destruct (set_nfs_root_path_never_raises tr remote_share driver_info
              (w ++ [SendRaw FALCON.RAW_SET_RIS_NFS;
                     SendRaw (FALCON.RAW_SET_RIS_NFS_IP
                                (OpenBMCIronicVirtMediaHW.hex_convert ip))]))
    as (r & w' & E & Hr).
  exists r, w'. split; [exact E|]. split; [exact Hr|].
  unfold FALCON._set_setup_nfs, FALCON._set_share_type, FALCON._set_nfs_server_ip.
  unfold try_except at 1. unfold bind at 1.
  unfold try_except at 1. unfold bind at 1. unfold send_raw at 1.
  destruct (on_raw tr (ncalls w) FALCON.RAW_SET_RIS_NFS); [|congruence].
  unfold ret at 1. unfold bind at 1.
  unfold try_except at 1. unfold bind at 1. unfold getitem. rewrite Hkey.
  unfold ret at 1. unfold bind at 1. unfold send_raw at 1.
  rewrite ncalls_send.
  destruct (on_raw tr (S (ncalls w)) _); [|congruence].
  unfold ret at 1. unfold bind at 1.
  rewrite <- app_assoc. cbn [app]. rewrite E. reflexivity.
Qed.

Lemma setup_nfs_ignores_path_failure_witness :
  exists r w',
    FALCON._set_nfs_root_path refuses_path "/r/" [("provisioning_server", "10.0.0.1")]
      ([] ++ [SendRaw FALCON.RAW_SET_RIS_NFS;
              SendRaw (FALCON.RAW_SET_RIS_NFS_IP
                         (OpenBMCIronicVirtMediaHW.hex_convert "10.0.0.1"))])
    = (Ret r, w')
    /\ (r = None \/ r = Some false)
    /\ FALCON._set_setup_nfs refuses_path "/r/" [("provisioning_server", "10.0.0.1")] []
       = (Ret true, w').
Proof.
  apply (setup_nfs_ignores_path_failure refuses_path "/r/" "10.0.0.1"
           [("provisioning_server", "10.0.0.1")] []).
  - reflexivity.
  - simpl. discriminate.
  - simpl. discriminate.
Defined.

(** The path step fails at its first command and the set-up still says [True]. *)
Example setup_nfs_path_never_written :
  FALCON._set_setup_nfs refuses_path "/r/" [("provisioning_server", "10.0.0.1")] [] =
  (Ret true,
   [SendRaw "0x32 0x9f 0x01 0x05 0x00 0x6e 0x66 0x73";
    SendRaw "0x32 0x9f 0x01 0x02 0x00 0x31 0x30 0x2e 0x30 0x2e 0x30 0x2e 0x31";
    SendRaw "0x32 0x9f 0x01 0x01 0x00 0x00"]).
Proof. reflexivity. Qed.

(** ** Stopping the redirection *)



Lemma stop_redirection_reads_count (tr : Transport) (w : World) (l : option Z) :
  in_frame (FALCON._get_virtual_media_device_count tr "CD") (w, l) =
  (Ret (device_count_of
          (on_raw tr (ncalls w)
                  (FALCON.RAW_GET_VMEDIA_DEVICE_COUNT FALCON.VMDEIA_DEVICE_TYPE_CD))),
   (w ++ [SendRaw (FALCON.RAW_GET_VMEDIA_DEVICE_COUNT FALCON.VMDEIA_DEVICE_TYPE_CD)], l)).
Proof.
  unfold in_frame. cbn [fst snd]. rewrite get_device_count_run. reflexivity.
Qed.





(** When the CD slot count cannot be read (the transport fails or the
    answer is no integer), [_stop_remote_redirection] raises: [range] over
    [None] fails before the loop variable is bound, and the handler's debug
    line, which formats that variable, raises in turn.  No stop command is
    sent. *)
Theorem stop_redirection_raises_without_count (tr : Transport) (w : World) :
  device_count_of
    (on_raw tr (ncalls w) (FALCON.RAW_GET_VMEDIA_DEVICE_COUNT FALCON.VMDEIA_DEVICE_TYPE_CD))
  = None ->
  FALCON._stop_remote_redirection tr w =
  (Raise (NameError "driveindex"),
   w ++ [SendRaw (FALCON.RAW_GET_VMEDIA_DEVICE_COUNT FALCON.VMDEIA_DEVICE_TYPE_CD)]).
Proof.
  intros Hcount.
  unfold FALCON._stop_remote_redirection, call_frame, try_except.
  unfold bind at 1. rewrite stop_redirection_reads_count, Hcount.
  reflexivity.
Qed.

Lemma stop_redirection_raises_without_count_witness :
  FALCON._stop_remote_redirection silent [] =
  (Raise (NameError "driveindex"), [SendRaw "0x32 0xca 0x04"]).
Proof.
  apply (stop_redirection_raises_without_count silent []). reflexivity.
Defined.

(** ** The order of the detach stages *)

(** With every stage instrumented, [detach_virtual_cd] runs enable media
    service, restart remote-image service, stop redirection, clear
    remote-image config, demount, HD slots to 0, CD slots to 1, in this
    order.  It stops right after the first stage that answers [False] and
    then gives [False]; the stop of redirection has no verdict, but what it
    raises leaves the detach; when all succeed the detach gives [True]. *)
Theorem detach_virtual_cd_stage_order
        (verdict : teardown_stage -> bool) (stop : result unit) (log : list teardown_stage) :
  FALCON.detach_virtual_cd (self := teardown_probes verdict stop) log =
  if forallb verdict detach_head then
    match stop with
    | Ret _ =>
        (Ret (forallb verdict detach_tail),
         log ++ detach_head ++ [TeardownStopRedirection]
             ++ teardown_until_failure verdict detach_tail)
    | Raise e => (Raise e, log ++ detach_head ++ [TeardownStopRedirection])
    end
  else (Ret false, log ++ teardown_until_failure verdict detach_head).
Proof.
  unfold FALCON.detach_virtual_cd, detach_head, detach_tail.
  cbn [teardown_probes FALCON.Teardown._enable_virtual_media FALCON.Teardown._restart_ris
       FALCON.Teardown._stop_remote_redirection FALCON.Teardown._clear_ris_configuration
       FALCON.Teardown._demount_virtual_device
       FALCON.Teardown._set_virtual_media_device_count
       forallb teardown_until_failure].
  unfold bind at 1.
  destruct (verdict TeardownEnableMedia); cbn [negb andb]; [|reflexivity].
  unfold bind at 1.
  destruct (verdict TeardownRestartRIS); cbn [negb andb];
    [|unfold ret; rewrite <- !app_assoc; reflexivity].
  unfold bind at 1.
  destruct stop as [[]|e]; [|rewrite <- !app_assoc; reflexivity].
  unfold bind at 1.
  destruct (verdict TeardownClearConfig); cbn [negb andb];
    [|unfold ret; rewrite <- !app_assoc; reflexivity].
  unfold bind at 1.
  destruct (verdict TeardownDemount); cbn [negb andb];
    [|unfold ret; rewrite <- !app_assoc; reflexivity].
  unfold bind at 1.
  destruct (verdict (TeardownSetDeviceCount "HD" 0)); cbn [negb andb];
    [|unfold ret; rewrite <- !app_assoc; reflexivity].
  unfold bind at 1.
  destruct (verdict (TeardownSetDeviceCount "CD" 1)); cbn [negb andb];
    unfold ret; rewrite <- !app_assoc; reflexivity.
Qed.

(** On FALCON the first stage of a detach is [_enable_virtual_media], whose
    status check cannot succeed: every detach gives [False] after the enable
    and restart commands and sixty sleeps, and never gets to restart the
    remote-image service, stop a redirection or change a slot count. *)
Theorem falcon_detach_ends_at_first_stage (tr : Transport) (w : World) :
  FALCON.detach_virtual_cd (self := FALCON.teardown tr) w =
  (Ret false,
   w ++ [SendRaw (FALCON.RAW_SET_VMEDIA_STATUS "0x01"); SendRaw FALCON.RAW_RESTART_VMEDIA]
     ++ rounds 60 [Sleep 5]).
Proof.
  unfold FALCON.detach_virtual_cd.
  cbn [FALCON.teardown FALCON.Teardown._enable_virtual_media].
  unfold bind at 1. rewrite enable_virtual_media_run. reflexivity.
Qed.

(** ** The hexadecimal text of a string *)

Lemma string_append_empty_r (s : string) : (s ++ "")%string = s.
Proof. induction s as [|c s IH]; simpl; [reflexivity | rewrite IH; reflexivity]. Qed.

Lemma string_append_assoc (s1 s2 s3 : string) :
  ((s1 ++ s2) ++ s3)%string = (s1 ++ (s2 ++ s3))%string.
Proof. induction s1 as [|c s1 IH]; simpl; [reflexivity | rewrite IH; reflexivity]. Qed.

Lemma string_length_append (s1 s2 : string) :
  String.length (s1 ++ s2) = String.length s1 + String.length s2.
Proof. induction s1 as [|c s1 IH]; simpl; [reflexivity | rewrite IH; reflexivity]. Qed.

(** Unfolding [hex_convert] at a string of two bytes or more. *)
Lemma hex_convert_cons (x y : ascii) (rest : string) :
  OpenBMCIronicVirtMediaHW.hex_convert (String x (String y rest)) =
  String "0" (String "x"
    (String (Py.hex_char (nat_of_ascii x / 16))
      (String (Py.hex_char (nat_of_ascii x mod 16))
        (String " " (OpenBMCIronicVirtMediaHW.hex_convert (String y rest)))))).
Proof. reflexivity. Qed.

Lemma hex_convert_single (x : ascii) :
  OpenBMCIronicVirtMediaHW.hex_convert (String x EmptyString) =
  String "0" (String "x"
    (String (Py.hex_char (nat_of_ascii x / 16))
      (String (Py.hex_char (nat_of_ascii x mod 16)) EmptyString))).
Proof. reflexivity. Qed.

Lemma hex_convert_starts (y : ascii) (rest : string) :
  exists t, OpenBMCIronicVirtMediaHW.hex_convert (String y rest) = String "0" t.
Proof.
  destruct rest as [|z rest].
  - rewrite hex_convert_single. eauto.
  - rewrite hex_convert_cons. eauto.
Qed.

(** A token stands for the byte it was made from, for each of the 256 bytes. *)
Lemma unhex_byte_token (c : ascii) :
  unhex_byte (String "0" (String "x"
    (String (Py.hex_char (nat_of_ascii c / 16))
      (String (Py.hex_char (nat_of_ascii c mod 16)) EmptyString)))) = Some c.
Proof.
  destruct c as [[] [] [] [] [] [] [] []]; vm_compute; reflexivity.
Qed.

Lemma unhex_hex_convert (s : string) :
  forall fuel, String.length s < fuel ->
    unhex fuel (OpenBMCIronicVirtMediaHW.hex_convert s) = Some s.
Proof.
  induction s as [|x rest IH]; intros fuel Hfuel.
  - destruct fuel; [simpl in Hfuel; lia | reflexivity].
  - destruct fuel as [|fuel]; [lia|].
    destruct rest as [|y rest].
    + rewrite hex_convert_single. cbn [unhex].
      rewrite unhex_byte_token. reflexivity.
    + rewrite hex_convert_cons. cbn [unhex].
      rewrite unhex_byte_token.
      destruct (hex_convert_starts y rest) as [t Ht].
      rewrite Ht. rewrite <- Ht.
      rewrite IH by (simpl in *; lia). reflexivity.
Qed.

(** [hex_convert] loses nothing: two strings with the same hexadecimal
    text are the same string, so two image names or share paths never give
    the same command. *)
Theorem hex_convert_injective (s1 s2 : string) :
  OpenBMCIronicVirtMediaHW.hex_convert s1 = OpenBMCIronicVirtMediaHW.hex_convert s2 ->
  s1 = s2.
Proof.
  intros H.
  pose proof (@unhex_hex_convert s1 (S (String.length s1 + String.length s2))) as H1.
  pose proof (@unhex_hex_convert s2 (S (String.length s1 + String.length s2))) as H2.
  rewrite H, H2 in H1 by lia.
  specialize (H1 ltac:(lia)). injection H1 as H1. symmetry. exact H1.
Qed.

Lemma hex_convert_injective_witness :
  "boot.iso" = ("boot" ++ ".iso")%string.
Proof.
  apply (hex_convert_injective "boot.iso" ("boot" ++ ".iso")%string). reflexivity.
Defined.

(** The text [hex_convert] makes of one byte reads back, through
    [int(text, 16)], as the code of that byte, for each of the 256 bytes. *)
Theorem hex_convert_byte_reads_back (c : ascii) :
  Py.int_of_string 16 (OpenBMCIronicVirtMediaHW.hex_convert (String c EmptyString)) =
  Some (Z.of_nat (nat_of_ascii c)).
Proof.
  destruct c as [[] [] [] [] [] [] [] []]; vm_compute; reflexivity.
Qed.

(** The text of a non-empty string has five characters per byte, less the
    blank that no token follows. *)
Theorem hex_convert_length (s : string) :
  s <> EmptyString ->
  String.length (OpenBMCIronicVirtMediaHW.hex_convert s) = 5 * String.length s - 1.
Proof.
  induction s as [|x rest IH]; intros Hs; [congruence|].
  destruct rest as [|y rest].
  - reflexivity.
  - rewrite hex_convert_cons. cbn [String.length].
    rewrite IH by discriminate. cbn [String.length]. lia.
Qed.

Lemma hex_convert_length_witness :
  String.length (OpenBMCIronicVirtMediaHW.hex_convert "/remote_image_share_root/") =
  5 * String.length "/remote_image_share_root/" - 1.
Proof.
  apply (hex_convert_length "/remote_image_share_root/"). discriminate.
Defined.

Lemma hex_convert_append (s : string) :
  forall (x y : ascii) (t : string),
    OpenBMCIronicVirtMediaHW.hex_convert (String x s ++ String y t) =
    (OpenBMCIronicVirtMediaHW.hex_convert (String x s) ++ " "
       ++ OpenBMCIronicVirtMediaHW.hex_convert (String y t))%string.
Proof.
  induction s as [|z s IH]; intros x y t.
  - cbn [append]. rewrite hex_convert_cons, hex_convert_single. reflexivity.
  - change (String x (String z s) ++ String y t)%string
      with (String x (String z s ++ String y t)).
    change (String z s ++ String y t)%string with (String z (s ++ String y t)).
    rewrite !hex_convert_cons.
    change (String z (s ++ String y t)) with (String z s ++ String y t)%string.
    rewrite IH. reflexivity.
Qed.

Lemma hex_convert_nul_run (n : nat) :
  OpenBMCIronicVirtMediaHW.hex_convert (string_of_list_ascii (repeat zero (S n))) =
  ("0x00" ++ nul_tokens n)%string.
Proof.
  induction n as [|n IH].
  - reflexivity.
  - change (string_of_list_ascii (repeat zero (S (S n))))
      with (String zero (String zero (string_of_list_ascii (repeat zero n)))).
    rewrite hex_convert_cons.
    change (String zero (string_of_list_ascii (repeat zero n)))
      with (string_of_list_ascii (repeat zero (S n))).
    rewrite IH. reflexivity.
Qed.

Lemma hex_convert_nuls (x : ascii) (s : string) (n : nat) :
  OpenBMCIronicVirtMediaHW.hex_convert
    (String x s ++ string_of_list_ascii (repeat zero n)) =
  (OpenBMCIronicVirtMediaHW.hex_convert (String x s) ++ nul_tokens n)%string.
Proof.
  destruct n as [|n].
  - cbn [repeat string_of_list_ascii nul_tokens]. rewrite !string_append_empty_r. reflexivity.
  - change (string_of_list_ascii (repeat zero (S n)))
      with (String zero (string_of_list_ascii (repeat zero n))).
    rewrite hex_convert_append.
    change (String zero (string_of_list_ascii (repeat zero n)))
      with (string_of_list_ascii (repeat zero (S n))).
    rewrite hex_convert_nul_run. reflexivity.
Qed.

(** With padding, a non-empty string is encoded in full and followed by
    one [0x00] token for every byte it is short of [length]; a string of
    [length] bytes or more is not cut. *)
Theorem hex_convert_padding_pads_right (string_value : string) (length : nat) :
  string_value <> EmptyString ->
  OpenBMCIronicVirtMediaHW.hex_convert_padding string_value true length =
  (OpenBMCIronicVirtMediaHW.hex_convert string_value
     ++ nul_tokens (length - String.length string_value))%string.
Proof.
  intros Hs. destruct string_value as [|x s]; [congruence|].
  unfold OpenBMCIronicVirtMediaHW.hex_convert_padding, OpenBMCIronicVirtMediaHW.ljust.
  apply hex_convert_nuls.
Qed.

Lemma hex_convert_padding_pads_right_witness :
  OpenBMCIronicVirtMediaHW.hex_convert_padding "ab" true 4 = "0x61 0x62 0x00 0x00"
  /\ OpenBMCIronicVirtMediaHW.hex_convert_padding "abcde" true 4 = "0x61 0x62 0x63 0x64 0x65".
Proof.
  split.
  - apply (hex_convert_padding_pads_right "ab" 4). discriminate.
  - apply (hex_convert_padding_pads_right "abcde" 4). discriminate.
Defined.

(** ** Waiting for the disk, on a scripted status *)

Lemma nsleeps_sleep (w : World) (secs : nat) : nsleeps (w ++ [Sleep secs]) = S (nsleeps w).
Proof.
  unfold nsleeps. rewrite filter_app, length_app. simpl. lia.
Qed.

Lemma nsleeps_rounds_of_sleep (w : World) (k : nat) :
  nsleeps (w ++ rounds k [Sleep 1]) = nsleeps w + k.
Proof.
  revert w. induction k as [|k IH]; intros w; cbn [rounds].
  - rewrite app_nil_r. lia.
  - rewrite app_assoc, IH, nsleeps_sleep. lia.
Qed.

Lemma ncalls_rounds_of_sleep (w : World) (k : nat) (secs : nat) :
  ncalls (w ++ rounds k [Sleep secs]) = ncalls w.
Proof.
  revert w. induction k as [|k IH]; intros w; cbn [rounds].
  - rewrite app_nil_r. reflexivity.
  - rewrite app_assoc, IH, ncalls_sleep. reflexivity.
Qed.

Section Scripted.

Variable script : nat -> string.

(** The status leaves ['mounting'] at the loop's read number [k]. *)
Lemma mounting_loop_leaves (k : nat) :
  forall (sleep_count : nat) (w : World),
    k < sleep_count ->
    (forall j, j < k -> script (nsleeps w + j) = "mounting") ->
    script (nsleeps w + k) <> "mounting" ->
    OpenBMCIronicVirtMediaHW.mounting_loop (self := timed_status script) sleep_count w =
    (Ret (sleep_count - k), w ++ rounds k [Sleep 1]).
Proof.
  induction k as [|k IH]; intros sleep_count w Hlt Hm Hleave;
    destruct sleep_count as [|n]; try lia;
    cbn [OpenBMCIronicVirtMediaHW.mounting_loop rounds];
    unfold bind at 1; cbn [timed_status Self.get_disk_attachment_status].
  - rewrite Nat.add_0_r in Hleave. apply String.eqb_neq in Hleave. rewrite Hleave.
    rewrite app_nil_r. reflexivity.
  - pose proof (Hm 0 ltac:(lia)) as H0. rewrite Nat.add_0_r in H0. rewrite H0.
    cbn [String.eqb Ascii.eqb Bool.eqb]. unfold bind at 1. unfold sleep at 1.
    rewrite IH.
    + rewrite <- app_assoc. reflexivity.
    + lia.
    + intros j Hj. rewrite nsleeps_sleep.
      replace (S (nsleeps w) + j) with (nsleeps w + S j) by lia. apply Hm. lia.
    + rewrite nsleeps_sleep.
      replace (S (nsleeps w) + k) with (nsleeps w + S k) by lia. exact Hleave.
Qed.

(** The status stays ['mounting'] for as many reads as [sleep_count] allows. *)
Lemma mounting_loop_runs_out (sleep_count : nat) :
  forall (w : World),
    (forall j, j < sleep_count -> script (nsleeps w + j) = "mounting") ->
    OpenBMCIronicVirtMediaHW.mounting_loop (self := timed_status script) sleep_count w =
    (Ret 0, w ++ rounds sleep_count [Sleep 1]).
Proof.
  induction sleep_count as [|n IH]; intros w Hm;
    cbn [OpenBMCIronicVirtMediaHW.mounting_loop rounds];
    unfold bind at 1; cbn [timed_status Self.get_disk_attachment_status].
  - rewrite app_nil_r. reflexivity.
  - pose proof (Hm 0 ltac:(lia)) as H0. rewrite Nat.add_0_r in H0. rewrite H0.
    cbn [String.eqb Ascii.eqb Bool.eqb]. unfold bind at 1. unfold sleep at 1.
    rewrite IH.
    + rewrite <- app_assoc. reflexivity.
    + intros j Hj. rewrite nsleeps_sleep.
      replace (S (nsleeps w) + j) with (nsleeps w + S j) by lia. apply Hm. lia.
Qed.

End Scripted.

(** When the status is ['mounting'] at first and turns into anything else
    after [k] one-second sleeps, with [0 < k < 10],
    [check_and_wait_for_cd_mounting] gives [True] and resets nothing,
    whatever the new status is: a status that turns into ['nfserror']
    during the wait is taken for an attached disk. *)
Theorem check_and_wait_accepts_any_change
        (tr : Transport) (script : nat -> string) (image_filename : string)
        (k : nat) (w : World) :
  0 < k < 10 ->
  (forall j, j < k -> script (nsleeps w + j) = "mounting") ->
  script (nsleeps w + k) <> "mounting" ->
  OpenBMCIronicVirtMediaHW.check_and_wait_for_cd_mounting
    (self := timed_status script) tr image_filename w =
  (Ret true, w ++ rounds k [Sleep 1]).
Proof.
  intros Hk Hm Hleave.
  unfold OpenBMCIronicVirtMediaHW.check_and_wait_for_cd_mounting.
  unfold bind at 1. cbn [timed_status Self.get_disk_attachment_status].
  pose proof (Hm 0 ltac:(lia)) as H0. rewrite Nat.add_0_r in H0. rewrite H0.
  cbn [String.eqb Ascii.eqb Bool.eqb].
  unfold OpenBMCIronicVirtMediaHW._wait_for_cd_mounting.
  unfold bind at 1. unfold bind at 1.
  change (Self.Build_IronicVirtMediaHW (fun w0 => (Ret (script (nsleeps w0)), w0)))
    with (timed_status script).
  rewrite (@mounting_loop_leaves script k 10 w) by (assumption || lia).
  replace (0 <? 10 - k)%nat with true by (symmetry; apply Nat.ltb_lt; lia).
  reflexivity.
Qed.

Lemma check_and_wait_accepts_any_change_witness :
  OpenBMCIronicVirtMediaHW.check_and_wait_for_cd_mounting
    (self := timed_status (turns_after 3 "nfserror")) responsive "boot.iso" [] =
  (Ret true, [Sleep 1; Sleep 1; Sleep 1]).
Proof.
  apply (check_and_wait_accepts_any_change responsive (turns_after 3 "nfserror")
           "boot.iso" 3 []).
  - lia.
  - intros j Hj. simpl. unfold turns_after.
    replace (j <? 3)%nat with true by (symmetry; apply Nat.ltb_lt; lia). reflexivity.
  - discriminate.
Defined.

(** When the status is still ['mounting'] after nine sleeps, the call
    sleeps a tenth second and resets the controller without looking at the
    status read that follows; and when the controller then comes back at
    liveness poll [k < 10], the call gives [False]: a recovered controller
    still ends the attach as a failure. *)
Theorem check_and_wait_fails_after_recovery
        (tr : Transport) (script : nat -> string) (image_filename : string)
        (k : nat) (w : World) :
  (forall j, j < 10 -> script (nsleeps w + j) = "mounting") ->
  on_exec tr (ncalls w) "bmc reset cold" <> Fails ->
  k < 10 ->
  (forall j, j < k -> on_exec tr (S (ncalls w) + j) "bmc info" = Fails) ->
  on_exec tr (S (ncalls w) + k) "bmc info" <> Fails ->
  OpenBMCIronicVirtMediaHW.check_and_wait_for_cd_mounting
    (self := timed_status script) tr image_filename w =
  (Ret false,
   w ++ rounds 10 [Sleep 1] ++ [bmc_reset] ++ rounds k [bmc_info; Sleep 10] ++ [bmc_info]).
Proof.
  intros Hm Hreset Hk Hfail Hok.
  unfold OpenBMCIronicVirtMediaHW.check_and_wait_for_cd_mounting.
  unfold bind at 1. cbn [timed_status Self.get_disk_attachment_status].
  pose proof (Hm 0 ltac:(lia)) as H0. rewrite Nat.add_0_r in H0. rewrite H0.
  cbn [String.eqb Ascii.eqb Bool.eqb].
  unfold OpenBMCIronicVirtMediaHW._wait_for_cd_mounting.
  unfold bind at 1. unfold bind at 1.
  change (Self.Build_IronicVirtMediaHW (fun w0 => (Ret (script (nsleeps w0)), w0)))
    with (timed_status script).
  rewrite (@mounting_loop_runs_out script 10 w Hm).
  cbn [Nat.ltb Nat.leb]. unfold bind at 1.
  rewrite (@issue_bmc_reset_answers tr k (w ++ rounds 10 [Sleep 1])).
  - unfold ret. rewrite <- !app_assoc. reflexivity.
  - rewrite ncalls_rounds_of_sleep. exact Hreset.
  - exact Hk.
  - intros j Hj. rewrite ncalls_rounds_of_sleep. apply Hfail. exact Hj.
  - rewrite ncalls_rounds_of_sleep. exact Hok.
Qed.

Lemma check_and_wait_fails_after_recovery_witness :
  OpenBMCIronicVirtMediaHW.check_and_wait_for_cd_mounting
    (self := timed_status (turns_after 10 "mounted")) responsive "boot.iso" [] =
  (Ret false, rounds 10 [Sleep 1] ++ [bmc_reset; bmc_info]).
Proof.
  apply (check_and_wait_fails_after_recovery responsive (turns_after 10 "mounted")
           "boot.iso" 0 []).
  - intros j Hj. simpl. unfold turns_after.
    replace (j <? 10)%nat with true by (symmetry; apply Nat.ltb_lt; lia). reflexivity.
  - simpl. discriminate.
  - lia.
  - intros j Hj. lia.
  - simpl. discriminate.
Defined.

(** When the transport fails the cold-reset command itself,
    [_issue_bmc_reset] raises [IPMIFailure] for that command at once and
    polls no liveness. *)
Theorem issue_bmc_reset_command_failure (tr : Transport) (w : World) :
  on_exec tr (ncalls w) "bmc reset cold" = Fails ->
  OpenBMCIronicVirtMediaHW._issue_bmc_reset tr w =
  (Raise (IPMIFailure "bmc reset cold"), w ++ [bmc_reset]).
Proof.
  intros Hreset.
  unfold OpenBMCIronicVirtMediaHW._issue_bmc_reset, try_except, bind, _exec_ipmitool.
  rewrite Hreset. reflexivity.
Qed.

Lemma issue_bmc_reset_command_failure_witness :
  OpenBMCIronicVirtMediaHW._issue_bmc_reset silent [] =
  (Raise (IPMIFailure "bmc reset cold"), [ExecIpmitool "bmc reset cold"]).
Proof.
  apply (issue_bmc_reset_command_failure silent []). reflexivity.
Defined.

(** On the base class, whose status method is left abstract, the status
    poll raises [NotImplementedError] and touches nothing. *)
Example check_and_wait_on_abstract_class :
  OpenBMCIronicVirtMediaHW.check_and_wait_for_cd_mounting
    (self := OpenBMCIronicVirtMediaHW.abstract) responsive "boot.iso" [] =
  (Raise NotImplementedError, []).
Proof. reflexivity. Qed.

(** ** A read-back that cannot be read *)

Section Unreadable.

Variable tr : Transport.
Variables (devicetype : string) (devicecount : Z).
Hypothesis settable : devicetype = "CD" \/ devicetype = "HD".

Let get_cmd : string := FALCON.RAW_GET_VMEDIA_DEVICE_COUNT (devparam devicetype).

Lemma get_device_count_unreadable (w : World) :
  device_count_of (on_raw tr (ncalls w) get_cmd) = None ->
  FALCON._get_virtual_media_device_count tr devicetype w = (Ret None, w ++ [SendRaw get_cmd]).
Proof.
  intros Hnone.
  rewrite get_device_count_run, (readable_settable devicetype settable).
  fold get_cmd. rewrite Hnone. reflexivity.
Qed.

Lemma device_count_loop_unreadable (k : nat) :
  forall (tries : nat) (m : Z) (w : World),
    S k < tries ->
    m <> devicecount ->
    (forall j, j < k -> reads_other_count tr devicetype devicecount (ncalls w + j)) ->
    device_count_of (on_raw tr (ncalls w + k) get_cmd) = None ->
    FALCON.device_count_loop tr devicetype devicecount (Some m) tries w =
    (Raise TypeError, w ++ rounds (S k) [Sleep 5; SendRaw get_cmd]).
Proof.
  induction k as [|k IH]; intros tries m w Hlt Hm Hother Hnone;
    destruct tries as [|n]; try lia;
    cbn [FALCON.device_count_loop FALCON.differs rounds];
    (pose proof Hm as Hneq; apply Z.eqb_neq in Hneq; rewrite Hneq);
    cbn [negb format_d];
    unfold bind at 1; unfold ret at 1;
    unfold bind at 1; unfold sleep at 1;
    unfold bind at 1.
  - rewrite Nat.add_0_r, <- (ncalls_sleep w 5) in Hnone.
    rewrite (get_device_count_unreadable _ Hnone).
    destruct n as [|n]; [lia|].
    cbn [FALCON.device_count_loop FALCON.differs format_d].
    unfold bind, raise. rewrite <- !app_assoc. reflexivity.
  - destruct (Hother 0) as (out & m' & Hout & Hint & Hm'); [lia|].
    rewrite Nat.add_0_r, <- (ncalls_sleep w 5) in Hout.
    rewrite (get_device_count_reads tr devicetype _ _ _ settable Hout Hint).
    rewrite (IH n m'); [| lia | exact Hm' | |].
    + subst get_cmd. cbn [rounds]. rewrite <- !app_assoc. reflexivity.
    + intros j Hj. autorewrite with calls.
      replace (S (ncalls w) + j) with (ncalls w + S j) by lia. apply Hother. lia.
    + autorewrite with calls.
      replace (S (ncalls w) + k) with (ncalls w + S k) by lia. exact Hnone.
Qed.

End Unreadable.

(** When the set command is answered and the read-back number [k] (from 0,
    [k < 40]) is the first that cannot be read, after [k] read-backs of
    other counts, [_set_virtual_media_device_count] gives [False] right
    after it: the loop's debug line formats the missing count with [%d],
    and the [TypeError] ends the call. *)
Theorem set_device_count_unreadable_gives_false
        (tr : Transport) (devicetype : string) (devicecount : Z) (k : nat) (w : World) :
  devicetype = "CD" \/ devicetype = "HD" ->
  (0 <= devicecount <= 4)%Z ->
  k < 40 ->
  on_raw tr (ncalls w)
         (FALCON.RAW_SET_VMEDIA_DEVICE_COUNT (devparam devicetype) (Py.hex devicecount)) <> Fails ->
  (forall j, j < k -> reads_other_count tr devicetype devicecount (S (ncalls w) + j)) ->
  device_count_of
    (on_raw tr (S (ncalls w) + k) (FALCON.RAW_GET_VMEDIA_DEVICE_COUNT (devparam devicetype)))
  = None ->
  let get := SendRaw (FALCON.RAW_GET_VMEDIA_DEVICE_COUNT (devparam devicetype)) in
  FALCON._set_virtual_media_device_count tr devicetype devicecount w =
  (Ret false,
   w ++ [SendRaw (FALCON.RAW_SET_VMEDIA_DEVICE_COUNT (devparam devicetype) (Py.hex devicecount));
         get]
     ++ rounds k [Sleep 5; get]).
Proof.
  intros Htype Hrange Hk Hset Hother Hnone get.
  unfold FALCON._set_virtual_media_device_count.
  replace ((0 <=? devicecount)%Z && (devicecount <=? 4)%Z) with true
    by (symmetry; apply andb_true_iff; split; apply Z.leb_le; lia).
  cbv beta iota delta [negb].
  rewrite (settable_devparam devicetype Htype).
  unfold try_except. unfold bind at 1. unfold send_raw at 1.
  destruct (on_raw tr (ncalls w) _) as [out0|]; [|congruence].
  unfold bind at 1.
  set (w1 := w ++ [SendRaw _]).
  assert (Hw1 : ncalls w1 = S (ncalls w)) by (subst w1; apply ncalls_send).
  destruct k as [|k].
  - rewrite Nat.add_0_r, <- Hw1 in Hnone.
    rewrite (get_device_count_unreadable tr devicetype Htype _ Hnone).
    unfold bind at 1. cbn [FALCON.device_count_loop FALCON.differs format_d].
    unfold bind, raise, ret. subst w1 get. cbn [rounds].
    rewrite <- !app_assoc. reflexivity.
  - destruct (Hother 0) as (out & m & Hout & Hint & Hm); [lia|].
    rewrite Nat.add_0_r, <- Hw1 in Hout.
    rewrite (get_device_count_reads tr devicetype _ _ _ Htype Hout Hint).
    unfold bind at 1.
    rewrite (@device_count_loop_unreadable tr devicetype devicecount Htype k 40 m);
      [| lia | exact Hm | |].
    + unfold ret. subst w1 get. rewrite <- !app_assoc. reflexivity.
    + intros j Hj. autorewrite with calls. rewrite Hw1.
      replace (S (S (ncalls w)) + j) with (S (ncalls w) + S j) by lia. apply Hother. lia.
    + autorewrite with calls. rewrite Hw1.
      replace (S (S (ncalls w)) + k) with (S (ncalls w) + S k) by lia. exact Hnone.
Qed.

Lemma set_device_count_unreadable_gives_false_witness :
  FALCON._set_virtual_media_device_count drops_third_read "CD" 1 [] =
  (Ret false,
   [SendRaw "0x32 0xcb 0x04 0x1"; SendRaw "0x32 0xca 0x04";
    Sleep 5; SendRaw "0x32 0xca 0x04";
    Sleep 5; SendRaw "0x32 0xca 0x04"]).
Proof.
  apply (set_device_count_unreadable_gives_false drops_third_read "CD" 1 2 []).
  - left. reflexivity.
  - lia.
  - lia.
  - simpl. discriminate.
  - intros j Hj. exists "00", 0%Z.
    destruct j as [|[|j]]; try lia; repeat split; lia.
  - reflexivity.
Defined.

(** ** Naming the image *)

(** [_set_image_name] never raises: it sends one command, gives [True]
    exactly when the transport answers it, and the command tells the file
    name: no other name gives the same command. *)
Theorem set_image_name_sends_the_name (tr : Transport) (image_filename : string) (w : World) :
  let cmd := FALCON.RAW_SET_IMG_NAME (OpenBMCIronicVirtMediaHW.hex_convert image_filename) in
  FALCON._set_image_name tr image_filename w =
    (Ret (match on_raw tr (ncalls w) cmd with Out _ => true | Fails => false end),
     w ++ [SendRaw cmd])
  /\ forall other,
       FALCON.RAW_SET_IMG_NAME (OpenBMCIronicVirtMediaHW.hex_convert other) = cmd ->
       other = image_filename.
Proof.
  intros cmd. split.
  - unfold FALCON._set_image_name, try_except, bind, send_raw. fold cmd.
    destruct (on_raw tr (ncalls w) cmd); reflexivity.
  - intros other H. subst cmd. unfold FALCON.RAW_SET_IMG_NAME in H.
    cbn [append] in H. inversion H as [Htext].
    pose proof (@unhex_hex_convert other
                  (S (String.length other + String.length image_filename))) as H1.
    pose proof (@unhex_hex_convert image_filename
                  (S (String.length other + String.length image_filename))) as H2.
    rewrite Htext, H2 in H1 by lia.
    specialize (H1 ltac:(lia)). injection H1 as H1. symmetry. exact H1.
Qed.

Lemma set_image_name_sends_the_name_witness :
  FALCON._set_image_name responsive "boot.iso" [] =
    (Ret true,
     [SendRaw "0x32 0xd7 0x01 0x01 0x01 0x01 0x62 0x6f 0x6f 0x74 0x2e 0x69 0x73 0x6f"])
  /\ ("boot" ++ ".iso")%string = "boot.iso".
Proof.
  split.
  - apply (proj1 (set_image_name_sends_the_name responsive "boot.iso" [])).
  - apply (proj2 (set_image_name_sends_the_name responsive "boot.iso" [])).
    reflexivity.
Defined.

(** ** The error state during the wait *)

(** C8, as the code runs: only the first status read of a call is checked
    for the error state.  When that read says ['mounting'] and the status
    says ['nfserror'] after [k] one-second sleeps of the wait loop, with
    [0 < k < 10], [check_and_wait_for_cd_mounting] raises nothing and gives
    [True], as for an attached disk, and no controller reset is issued. *)
Theorem nfserror_during_wait_gives_true
        (tr : Transport) (script : nat -> string) (image_filename : string)
        (k : nat) (w : World) :
  0 < k < 10 ->
  (forall j, j < k -> script (nsleeps w + j) = "mounting") ->
  script (nsleeps w + k) = "nfserror" ->
  OpenBMCIronicVirtMediaHW.check_and_wait_for_cd_mounting
    (self := timed_status script) tr image_filename w =
  (Ret true, w ++ rounds k [Sleep 1]).
Proof.
  intros Hk Hm Herror.
  assert (Hleave : script (nsleeps w + k) <> "mounting")
    by (rewrite Herror; discriminate).
  unfold OpenBMCIronicVirtMediaHW.check_and_wait_for_cd_mounting.
  unfold bind at 1. cbn [timed_status Self.get_disk_attachment_status].
  pose proof (Hm 0 ltac:(lia)) as H0. rewrite Nat.add_0_r in H0. rewrite H0.
  cbn [String.eqb Ascii.eqb Bool.eqb].
  unfold OpenBMCIronicVirtMediaHW._wait_for_cd_mounting.
  unfold bind at 1. unfold bind at 1.
  change (Self.Build_IronicVirtMediaHW (fun w0 => (Ret (script (nsleeps w0)), w0)))
    with (timed_status script).
  rewrite (@mounting_loop_leaves script k 10 w) by (assumption || lia).
  replace (0 <? 10 - k)%nat with true by (symmetry; apply Nat.ltb_lt; lia).
  reflexivity.
Qed.

Lemma nfserror_during_wait_witness :
  OpenBMCIronicVirtMediaHW.check_and_wait_for_cd_mounting
    (self := timed_status (turns_after 1 "nfserror")) responsive "boot.iso" [] =
  (Ret true, [Sleep 1]).
Proof.
  apply (nfserror_during_wait_gives_true responsive (turns_after 1 "nfserror")
           "boot.iso" 1 []).
  - lia.
  - intros j Hj. destruct j as [|j]; [reflexivity | lia].
  - reflexivity.
Defined.
